(** * Session lifecycle of the Steel Browser example scripts

    A shallow embedding of [examples/ai-agent.py] (class
    [SteelBrowserSession], [run_ai_agent_task], [test_basic_connection])
    and of [examples/simple-test.py] ([test_steel_cdp]).

    The scripts talk to three kinds of outside parties: the UUID
    generator, the session service (through [requests]) and the
    browser/agent collaborators.  Their answers are not computed by the
    scripts, so the embedding takes them from an environment [env] that
    answers as a function of the history of the run.  Every network
    request and collaborator call is appended to a trace; Python
    exceptions are an explicit result, with the distinction between
    [Exception] and [BaseException] that [except Exception] relies on.
    Logging and printing have no effect on the control flow and are left
    out.  [main], which picks one of the two entry points of ai-agent.py
    from the process environment and the prompt, comes after the
    scripts it starts. *)

From Stdlib Require Import ZArith NArith Ascii String List Lia.
From stdpp Require Import base option gmap strings list.

#[local] Set Warnings "-register-all".
#[local] Open Scope string_scope.
#[local] Open Scope Z_scope.

(** ** Python values *)

(** The values [response.json()] can produce.  JSON numbers are kept as
    integers: the scripts never compute with them. *)
Inductive value : Type :=
| VNone
| VBool (b : bool)
| VInt (z : Z)
| VStr (s : string)
| VList (l : list value)
| VDict (m : gmap string value).

(** Python truth value, as tested by [if session_details:]. *)
Definition truthy (v : value) : bool :=
  match v with
  | VNone => false
  | VBool b => b
  | VInt z => negb (z =? 0)
  | VStr s => negb (String.eqb s "")
  | VList l => match l with [] => false | _ => true end
  | VDict m => match map_to_list m with [] => false | _ => true end
  end.

(** ** UUIDs *)

(** [uuid.uuid4()] is a 128-bit number; [str] renders it as 32 lower-case
    hexadecimal digits in groups of 8-4-4-4-12. *)
Definition hex_digit (n : N) : ascii :=
  let d := (n mod 16)%N in
  if (d <? 10)%N then ascii_of_N (48 + d) else ascii_of_N (87 + d).

(** [hex_field bits lo len]: the [len] digits whose least significant one
    is digit number [lo], most significant first. *)
Fixpoint hex_field (bits : N) (lo : N) (len : nat) : string :=
  match len with
  | O => ""
  | S k => String (hex_digit (N.shiftr bits (4 * (lo + N.of_nat k)))) (hex_field bits lo k)
  end.

Definition str_uuid (bits : N) : string :=
  hex_field bits 24 8 +:+ "-" +:+ hex_field bits 20 4 +:+ "-" +:+
  hex_field bits 16 4 +:+ "-" +:+ hex_field bits 12 4 +:+ "-" +:+
  hex_field bits 0 12.

(** ** Exceptions *)

Inductive exn : Type :=
| HTTPError (status : Z)        (* requests: raise_for_status *)
| ConnectionError               (* requests: transport failure *)
| RequestsTimeout               (* requests.exceptions.Timeout: the timeout elapsed *)
| JSONDecodeError               (* requests: response.json() on a non-JSON body *)
| AttributeError                (* .get on a value that is not a dict *)
| KeyError (k : string)         (* d[k] on a dict without k *)
| TypeError                     (* v[k] on a value that is not a dict *)
| UnboundLocalError             (* a local read before its assignment *)
| CollaboratorError (msg : string)  (* any Exception of a collaborator *)
| CancelledError                (* asyncio: BaseException, not Exception *)
| KeyboardInterrupt.            (* BaseException, not Exception *)

(** Whether [except Exception] catches it. *)
Definition is_Exception (e : exn) : bool :=
  match e with
  | CancelledError | KeyboardInterrupt => false
  | _ => true
  end.

(** ** Requests, collaborator calls and the trace *)

Inductive http_method : Type := GET | POST.

Record request : Type := Request {
  meth : http_method;
  url : string;
  json_body : option value;     (* the json= keyword *)
  timeout : option Z            (* the timeout= keyword; None: requests waits forever *)
}.

Record Browser : Type := MkBrowser { browser_cdp_url : value }.

Inductive ext_call : Type :=
| BrowserCtor (cdp : value)     (* Browser(config=BrowserConfig(headless=False, cdp_url=...)) *)
| ChatAnthropicCtor             (* ChatAnthropic(model_name=..., api_key=...) *)
| AgentCtor                     (* Agent(task=simple_task, llm=..., browser=browser) *)
| AgentRun                      (* await agent.run() *)
| Sleep (secs : Z)              (* await asyncio.sleep(secs) *)
| BrowserClose                  (* await browser.close() *)
| Playwright (cdp : value).     (* the async with async_playwright() block *)

Inductive event : Type :=
| EvHttp (r : request)
| EvExt (c : ext_call).

Inductive net_outcome : Type :=
| Response (status : Z) (body : option value)  (* body: None when it is not JSON *)
| NetRaises (e : exn).

Inductive ext_outcome : Type :=
| Returns
| ExtRaises (e : exn).

(** The outside world, answering by the history of the run so far. *)
Record env : Type := Env {
  uuid4 : list event -> N;
  net : list event -> request -> net_outcome;
  ext : list event -> ext_call -> ext_outcome
}.

(** ** The object and the state of a run *)

Record SteelBrowserSession : Type := MkSession {
  api_url : string;
  session_id : option string;   (* None or str(uuid) *)
  cdp_url : value;
  session_data : value
}.

(** [__init__] *)
Definition init (api : string) : SteelBrowserSession :=
  {| api_url := api; session_id := None; cdp_url := VNone; session_data := VNone |}.

Record state : Type := MkState {
  obj : SteelBrowserSession;        (* the object the methods mutate *)
  local_browser : option Browser;   (* the local [browser] of run_ai_agent_task; None: unbound *)
  trace : list event                (* oldest first *)
}.

Definition initial (api : string) : state :=
  {| obj := init api; local_browser := None; trace := [] |}.

(** ** A state and exception monad *)

Inductive res (A : Type) : Type :=
| Ret (a : A)
| Raise (e : exn).
Arguments Ret {A} a.
Arguments Raise {A} e.

Definition M (A : Type) : Type := state -> res A * state.

#[export] Instance M_ret : MRet M := fun A a st => (Ret a, st).
#[export] Instance M_bind : MBind M := fun A B f m st =>
  match m st with
  | (Ret a, st') => f a st'
  | (Raise e, st') => (Raise e, st')
  end.

Definition raise {A : Type} (e : exn) : M A := fun st => (Raise e, st).

(** [try: body except Exception as e: handler e] *)
Definition try_except {A : Type} (body : M A) (handler : exn -> M A) : M A :=
  fun st =>
    match body st with
    | (Ret a, st') => (Ret a, st')
    | (Raise e, st') => if is_Exception e then handler e st' else (Raise e, st')
    end.

(** [try: body finally: fin] *)
Definition try_finally {A : Type} (body : M A) (fin : M unit) : M A :=
  fun st =>
    match body st with
    | (r, st') =>
        match fin st' with
        | (Ret _, st'') => (r, st'')
        | (Raise e, st'') => (Raise e, st'')
        end
    end.

Definition get_self : M SteelBrowserSession := fun st => (Ret (obj st), st).

Definition set_self (o : SteelBrowserSession) : M unit :=
  fun st => (Ret tt, {| obj := o; local_browser := local_browser st; trace := trace st |}).

Definition set_session_id (i : option string) : M unit :=
  o ← get_self;
  set_self {| api_url := api_url o; session_id := i;
              cdp_url := cdp_url o; session_data := session_data o |}.

Definition set_session_data (d : value) : M unit :=
  o ← get_self;
  set_self {| api_url := api_url o; session_id := session_id o;
              cdp_url := cdp_url o; session_data := d |}.

Definition set_cdp_url (c : value) : M unit :=
  o ← get_self;
  set_self {| api_url := api_url o; session_id := session_id o;
              cdp_url := c; session_data := session_data o |}.

Definition get_browser : M (option Browser) := fun st => (Ret (local_browser st), st).

Definition set_browser (b : option Browser) : M unit :=
  fun st => (Ret tt, {| obj := obj st; local_browser := b; trace := trace st |}).

Definition log (ev : event) (st : state) : state :=
  {| obj := obj st; local_browser := local_browser st; trace := trace st ++ [ev] |}.

Section Program.

Variable E : env.

(** *** The libraries *)

(** [str(uuid.uuid4())] *)
Definition new_uuid : M string := fun st => (Ret (str_uuid (uuid4 E (trace st))), st).

Definition send (r : request) : M (Z * option value) :=
  fun st =>
    match net E (trace st) r with
    | Response s b => (Ret (s, b), log (EvHttp r) st)
    | NetRaises e => (Raise e, log (EvHttp r) st)
    end.

Definition requests_post (u : string) (j : option value) (t : option Z) : M (Z * option value) :=
  send {| meth := POST; url := u; json_body := j; timeout := t |}.

Definition requests_get (u : string) (t : option Z) : M (Z * option value) :=
  send {| meth := GET; url := u; json_body := None; timeout := t |}.

(** [Response.raise_for_status] of requests: it raises for the client
    errors 400..499 and the server errors 500..599, and for nothing else. *)
Definition raise_for_status (r : Z * option value) : M unit :=
  if (400 <=? fst r) && (fst r <? 600) then raise (HTTPError (fst r)) else mret tt.

(** [Response.json] *)
Definition response_json (r : Z * option value) : M value :=
  match snd r with
  | Some v => mret v
  | None => raise JSONDecodeError
  end.

(** [v.get(k, d)]: only a dict has the method. *)
Definition dict_get (v : value) (k : string) (d : value) : M value :=
  match v with
  | VDict m => mret (default d (m !! k))
  | _ => raise AttributeError
  end.

(** [v[k]] with a string key. *)
Definition subscript (v : value) (k : string) : M value :=
  match v with
  | VDict m => match m !! k with Some x => mret x | None => raise (KeyError k) end
  | _ => raise TypeError
  end.

Definition call (c : ext_call) : M unit :=
  fun st =>
    match ext E (trace st) c with
    | Returns => (Ret tt, log (EvExt c) st)
    | ExtRaises e => (Raise e, log (EvExt c) st)
    end.

(** *** class SteelBrowserSession *)

(** What an f-string prints for [self.session_id]. *)
Definition fmt_id (i : option string) : string :=
  match i with Some s => s | None => "None" end.

(** [not self.session_id] *)
Definition not_id (i : option string) : bool :=
  match i with Some s => String.eqb s "" | None => true end.

Definition create_request (api u : string) : request :=
  {| meth := POST; url := api +:+ "/v1/sessions";
     json_body := Some (VDict {[ "sessionId" := VStr u ]}); timeout := Some 30 |}.

Definition details_request (api : string) (i : option string) : request :=
  {| meth := GET; url := api +:+ "/v1/sessions/" +:+ fmt_id i;
     json_body := None; timeout := Some 10 |}.

Definition release_request (api : string) (i : option string) : request :=
  {| meth := POST; url := api +:+ "/v1/sessions/" +:+ fmt_id i +:+ "/release";
     json_body := None; timeout := Some 10 |}.

Definition default_cdp_url : value := VStr "ws://localhost:3000/".

Definition create_session : M value :=
  u ← new_uuid;
  set_session_id (Some u);;
  self ← get_self;
  response ← requests_post (api_url self +:+ "/v1/sessions")
               (Some (VDict {[ "sessionId" := VStr u ]})) (Some 30);
  raise_for_status response;;
  d ← response_json response;
  set_session_data d;;
  c ← dict_get d "websocketUrl" default_cdp_url;
  set_cdp_url c;;
  (* the two .get calls of the logged banner *)
  dict_get d "debugUrl" VNone;;
  dict_get d "sessionViewerUrl" VNone;;
  mret c.

Definition get_session_details : M value :=
  self ← get_self;
  response ← requests_get (api_url self +:+ "/v1/sessions/" +:+ fmt_id (session_id self))
               (Some 10);
  if fst response =? 200 then response_json response else mret VNone.

Definition release_session : M unit :=
  self ← get_self;
  if not_id (session_id self) then mret tt
  else
    try_except
      (response ← requests_post
                    (api_url self +:+ "/v1/sessions/" +:+ fmt_id (session_id self) +:+ "/release")
                    None (Some 10);
       (* both branches only log *)
       if fst response =? 200 then mret tt else mret tt)
      (fun _ => mret tt).

(** *** The scripts *)

(** [steel_session = SteelBrowserSession(api_url)], with the frame's
    [browser] still unbound. *)
Definition new_session (api : string) : M unit :=
  set_self (init api);; set_browser None.

Definition agent_phase : M unit :=
  cdp ← create_session;
  call (BrowserCtor cdp);;
  set_browser (Some (MkBrowser cdp));;
  call ChatAnthropicCtor;;
  call AgentCtor;;
  call AgentRun;;
  session_details ← get_session_details;
  (if truthy session_details
   then dict_get session_details "sessionViewerUrl" VNone;;
        dict_get session_details "debugUrl" VNone;;
        mret tt
   else mret tt);;
  call (Sleep 5).

Definition close_browser : M unit :=
  try_except
    (b ← get_browser;
     match b with
     | Some _ => call BrowserClose
     | None => raise UnboundLocalError
     end)
    (fun _ => mret tt).

Definition cleanup : M unit :=
  close_browser;; release_session.

Definition run_ai_agent_task (api : string) : M unit :=
  new_session api;;
  try_finally (try_except agent_phase (fun _ => mret tt)) cleanup.

Definition test_basic_connection (api : string) : M unit :=
  new_session api;;
  create_session;;
  call (Sleep 30);;
  release_session.

(** simple-test.py: the session id is a local, no object is involved. *)
Definition test_steel_cdp : M unit :=
  session_id ← new_uuid;
  let api := "http://localhost:3000" in
  response ← requests_post (api +:+ "/v1/sessions")
               (Some (VDict {[ "sessionId" := VStr session_id ]})) None;
  raise_for_status response;;
  d ← response_json response;
  (* the two printed fields, then the endpoint handed to Playwright *)
  subscript d "websocketUrl";;
  subscript d "sessionViewerUrl";;
  ws ← subscript d "websocketUrl";
  call (Playwright ws);;
  requests_post (api +:+ "/v1/sessions/" +:+ session_id +:+ "/release") None None;;
  mret tt.

End Program.

(** ** The entry point of ai-agent.py *)

(** What [main] reads from outside the session service: the process
    environment (after [load_dotenv()]) and what [input(...)] does at
    the prompt, which returns the line typed or raises (EOFError,
    KeyboardInterrupt). *)
Record process : Type := Process {
  environ : gmap string string;
  answer : res string
}.

(** [not os.getenv(k)]: the variable is unset or empty. *)
Definition no_value (v : option string) : bool :=
  match v with Some s => String.eqb s "" | None => true end.

(** [str.lower] on the ASCII letters.  Other bytes are kept; no other
    character lowers to the letter y, so the test of [main] is the one
    Python makes. *)
Definition lower_ascii (a : ascii) : ascii :=
  let n := N_of_ascii a in
  if ((65 <=? n) && (n <=? 90))%N then ascii_of_N (n + 32) else a.

Fixpoint lower (s : string) : string :=
  match s with
  | EmptyString => EmptyString
  | String a s' => String (lower_ascii a) (lower s')
  end.

(** [input("Run basic connection test? (y/n): ")] *)
Definition input (P : process) : M string :=
  fun st => match answer P with
            | Ret s => (Ret s, st)
            | Raise e => (Raise e, st)
            end.

(** The base URL [main] passes on: [os.getenv("STEEL_API_URL", default)]. *)
Definition configured_url (P : process) : string :=
  default "http://localhost:3000" (environ P !! "STEEL_API_URL").

Definition main E (P : process) : M unit :=
  let api := configured_url P in
  if no_value (environ P !! "ANTHROPIC_API_KEY")
  then
    choice ← input P;
    if String.eqb (lower choice) "y"
    then test_basic_connection E api
    else mret tt
  else run_ai_agent_task E api.

(** ** Scripted environments

    Concrete worlds for the examples below: the service answers the
    n-th request of the run with the n-th entry of a script, the UUID
    generator returns a fixed number, and the collaborators answer by
    the kind of call. *)

Definition is_http (ev : event) : bool :=
  match ev with EvHttp _ => true | EvExt _ => false end.

Definition scripted (bits : N) (answers : list net_outcome)
    (collab : ext_call -> ext_outcome) : env :=
  {| uuid4 := fun _ => bits;
     net := fun tr _ => nth (List.length (List.filter is_http tr)) answers (NetRaises ConnectionError);
     ext := fun _ c => collab c |}.

Definition all_return : ext_call -> ext_outcome := fun _ => Returns.

Definition agent_fails : ext_call -> ext_outcome :=
  fun c => match c with AgentRun => ExtRaises (CollaboratorError "agent") | _ => Returns end.

Definition sample_bits : N := 24197857161011715162171839636988778104%N.

(** ** The Session of the specification

    The object keeps no record of a release: [release_session] leaves
    it as it is.  A session counts as [Active] once it holds a
    connection endpoint. *)

Inductive SessionState : Type := Uncreated | Active | Released.

Definition state_of (s : SteelBrowserSession) : SessionState :=
  match cdp_url s with
  | VNone => Uncreated
  | _ => Active
  end.

(** The [websocketUrl] field of a response body, when it has one. *)
Definition websocket_field (body : option value) : option value :=
  match body with
  | Some (VDict m) => m !! "websocketUrl"
  | _ => None
  end.

(** The creation request of [create_session] in state [st]. *)
Definition creation E (st : state) : net_outcome :=
  net E (trace st) (create_request (api_url (obj st)) (str_uuid (uuid4 E (trace st)))).

(** The creation request fails: a transport error, or a status for which
    [raise_for_status] raises. *)
Definition creation_fails E (st : state) : Prop :=
  match creation E st with
  | NetRaises _ => True
  | Response s _ => 400 <= s < 600
  end.

Definition with_id (st : state) (i : option string) : state :=
  {| obj := {| api_url := api_url (obj st); session_id := i;
               cdp_url := cdp_url (obj st); session_data := session_data (obj st) |};
     local_browser := local_browser st; trace := trace st |}.

Definition with_result (st : state) (d c : value) : state :=
  {| obj := {| api_url := api_url (obj st); session_id := session_id (obj st);
               cdp_url := c; session_data := d |};
     local_browser := local_browser st; trace := trace st |}.

(** ** Sample worlds *)

Definition svc_body : option value :=
  Some (VDict {[ "websocketUrl" := VStr "ws://svc/cdp/S1" ]}).

Definition empty_body : option value := Some (VDict ∅).

Definition local_api : string := "http://localhost:3000".

Definition sample_id : string := "12345678-1234-5678-1234-567812345678".

(** Creation succeeds, the inspection finds nothing, the release succeeds. *)
Definition happy : env :=
  scripted sample_bits [Response 201 svc_body; Response 404 None; Response 200 None] all_return.

(** The service answers 200 with an object that has no [websocketUrl]. *)
Definition no_endpoint : env := scripted sample_bits [Response 200 empty_body] all_return.

(** The service answers 300 Multiple Choices with a JSON object. *)
Definition multiple_choices : env := scripted sample_bits [Response 300 svc_body] all_return.

(** The service answers 503 to everything. *)
Definition unavailable : env :=
  {| uuid4 := fun _ => sample_bits;
     net := fun _ _ => Response 503 None;
     ext := fun _ _ => Returns |}.

(** No request gets through. *)
Definition unreachable : env :=
  {| uuid4 := fun _ => sample_bits;
     net := fun _ _ => NetRaises ConnectionError;
     ext := fun _ _ => Returns |}.

(** The creation request times out; whatever follows is answered 404. *)
Definition creation_times_out : env :=
  scripted sample_bits [NetRaises RequestsTimeout; Response 404 None] all_return.

(** The task is cancelled while it awaits the agent. *)
Definition cancelled_agent : ext_call -> ext_outcome :=
  fun c => match c with AgentRun => ExtRaises CancelledError | _ => Returns end.

Definition cancelled : env :=
  scripted sample_bits [Response 201 svc_body; Response 200 None] cancelled_agent.

(** The task is cancelled again while the cleanup awaits [browser.close()]. *)
Definition cancelled_twice : env :=
  scripted sample_bits [Response 201 svc_body; Response 200 None]
    (fun c => match c with
              | AgentRun | BrowserClose => ExtRaises CancelledError
              | _ => Returns
              end).

(** The automation phase completes; the task is cancelled while the
    cleanup awaits [browser.close()]. *)
Definition cancelled_at_close : env :=
  scripted sample_bits [Response 201 svc_body; Response 404 None; Response 200 None]
    (fun c => match c with BrowserClose => ExtRaises CancelledError | _ => Returns end).

(** ** Vocabulary of the properties *)

(** A request outcome that [except Exception] can absorb: a response of
    any status, or a failure that is an [Exception], as every transport
    failure of requests is. *)
Definition absorbable (o : net_outcome) : Prop :=
  match o with
  | Response _ _ => True
  | NetRaises e => is_Exception e = true
  end.

(** The calls that follow creation in a session's life. *)
Inductive later_call : Type := Inspect | Release.

Definition run_call E (st : state) (c : later_call) : state :=
  match c with
  | Inspect => snd (get_session_details E st)
  | Release => snd (release_session E st)
  end.

Definition run_calls E (cs : list later_call) (st : state) : state :=
  fold_left (run_call E) cs st.

Definition request_of (api u : string) (c : later_call) : request :=
  match c with
  | Inspect => details_request api (Some u)
  | Release => release_request api (Some u)
  end.

(** [browser.close()] returns, or fails with an [Exception]. *)
Definition close_settles E : Prop :=
  forall tr, match ext E tr BrowserClose with
             | Returns => True
             | ExtRaises e => is_Exception e = true
             end.

(** The close call of the cleanup path: made when [browser] is bound. *)
Definition closing (b : option Browser) : list event :=
  match b with
  | Some _ => [EvExt BrowserClose]
  | None => []
  end.

(** The session of the run: its service, its id, and the events so far. *)
Definition session_of (api u : string) (tr0 : list event) (st : state) : Prop :=
  api_url (obj st) = api /\ session_id (obj st) = Some u /\
  exists l, trace st = (tr0 ++ l)%list.

(** The creation request of simple-test.py. *)
Definition cdp_create_request (u : string) : request :=
  {| meth := POST; url := "http://localhost:3000/v1/sessions";
     json_body := Some (VDict {[ "sessionId" := VStr u ]}); timeout := None |}.

(** The release request of simple-test.py. *)
Definition cdp_release_request (u : string) : request :=
  {| meth := POST; url := "http://localhost:3000/v1/sessions/" +:+ u +:+ "/release";
     json_body := None; timeout := None |}.

(** The trace starts, after [tr0], with the event [ev]. *)
Definition continues (tr0 : list event) (ev : event) (st : state) : Prop :=
  exists rest, trace st = (tr0 ++ ev :: rest)%list.

(** [keeps I m]: the state after [m] satisfies [I] whenever the state
    before does, whether [m] returns or raises. *)
Definition keeps {A : Type} (I : state -> Prop) (m : M A) : Prop :=
  forall st, I st -> I (snd (m st)).

(** A result that is not an [Exception]: a return, or an exception that
    [except Exception] lets through. *)
Definition quiet {A : Type} (r : res A) : Prop :=
  match r with
  | Ret _ => True
  | Raise e => is_Exception e = false
  end.

(** The state after [n] calls of [release_session] in a row. *)
Definition release_times E (n : nat) (st : state) : state :=
  Nat.iter n (fun s => snd (release_session E s)) st.

(** An event that may follow the creation request in a run for the
    session [u] at [api]: a collaborator call, or the inspection or the
    release of that session. *)
Definition follows_creation (api u : string) (ev : event) : Prop :=
  match ev with
  | EvExt _ => True
  | EvHttp r => r = details_request api (Some u) \/ r = release_request api (Some u)
  end.

(** The run of the session [u] at [api] that started after [tr0]: one
    creation request, then only events that may follow it. *)
Definition one_session (api u : string) (tr0 : list event) (st : state) : Prop :=
  api_url (obj st) = api /\ session_id (obj st) = Some u /\
  exists rest, trace st = (tr0 ++ EvHttp (create_request api u) :: rest)%list /\
               Forall (follows_creation api u) rest.

(** Among the events [l] added after [tr0], a browser was only ever
    built on the endpoint the object holds, and that endpoint satisfies
    [Q]. *)
Definition browser_on_endpoint (Q : value -> Prop) (tr0 : list event) (st : state) : Prop :=
  exists l, trace st = (tr0 ++ l)%list /\
            forall c, In (EvExt (BrowserCtor c)) l -> cdp_url (obj st) = c /\ Q c.

(** A key is configured, and the base URL is set to another host. *)
Definition configured : process :=
  {| environ := <[ "STEEL_API_URL" := "http://steel:3000" ]>
                  {[ "ANTHROPIC_API_KEY" := "sk-test" ]};
     answer := Raise (CollaboratorError "EOFError") |}.

(** No key; the user answers [n]. *)
Definition declines : process := {| environ := ∅; answer := Ret "n" |}.

(** An empty key; the user answers [Y]. *)
Definition accepts : process :=
  {| environ := {[ "ANTHROPIC_API_KEY" := "" ]}; answer := Ret "Y" |}.

(** The session is created, and the wait that follows is interrupted. *)
Definition interrupted : env :=
  scripted sample_bits [Response 201 svc_body; Response 200 None]
    (fun c => match c with Sleep _ => ExtRaises KeyboardInterrupt | _ => Returns end).

(** A creation answer with both fields simple-test.py reads. *)
Definition full_body : gmap string value :=
  <[ "sessionViewerUrl" := VStr "http://svc/view/S1" ]>
    {[ "websocketUrl" := VStr "ws://svc/cdp/S1" ]}.

(** The session is created; the release is answered 500. *)
Definition release_refused : env :=
  scripted sample_bits [Response 201 (Some (VDict full_body)); Response 500 None] all_return.

(** The session is created; Playwright fails. *)
Definition playwright_fails : env :=
  scripted sample_bits [Response 201 (Some (VDict full_body)); Response 200 None]
    (fun c => match c with
              | Playwright _ => ExtRaises (CollaboratorError "playwright")
              | _ => Returns
              end).

(** The service answers 200 with a JSON list. *)
Definition list_body : env := scripted sample_bits [Response 200 (Some (VList []))] all_return.

(** * Properties *)

(** ** Equations of the methods *)

Lemma str_uuid_cons (bits : N) : exists a s, str_uuid bits = String a s.
Proof. unfold str_uuid. cbn [hex_field String.app String.append]. eauto. Qed.

Lemma not_id_uuid (bits : N) : not_id (Some (str_uuid bits)) = false.
Proof. destruct (str_uuid_cons bits) as (a & s & ->). reflexivity. Qed.

Lemma release_session_eq E st :
  release_session E st =
  if not_id (session_id (obj st)) then (Ret tt, st)
  else
    let r := release_request (api_url (obj st)) (session_id (obj st)) in
    match net E (trace st) r with
    | Response _ _ => (Ret tt, log (EvHttp r) st)
    | NetRaises e =>
        if is_Exception e then (Ret tt, log (EvHttp r) st) else (Raise e, log (EvHttp r) st)
    end.
Proof.
  unfold release_session, mbind, M_bind, get_self.
  destruct (not_id (session_id (obj st))); [reflexivity|].
  unfold try_except, requests_post, send, release_request. cbn zeta.
  destruct (net E (trace st) _) as [s b|e]; [|reflexivity].
  cbn. destruct (s =? 200); reflexivity.
Qed.

Lemma get_session_details_eq E st :
  get_session_details E st =
  let r := details_request (api_url (obj st)) (session_id (obj st)) in
  match net E (trace st) r with
  | Response s b =>
      if s =? 200
      then match b with
           | Some v => (Ret v, log (EvHttp r) st)
           | None => (Raise JSONDecodeError, log (EvHttp r) st)
           end
      else (Ret VNone, log (EvHttp r) st)
  | NetRaises e => (Raise e, log (EvHttp r) st)
  end.
Proof.
  unfold get_session_details, mbind, M_bind, get_self, requests_get, send, details_request.
  cbn zeta. destruct (net E (trace st) _) as [s b|e]; [|reflexivity].
  cbn. destruct (s =? 200); [|reflexivity].
  unfold response_json. cbn. destruct b; reflexivity.
Qed.

Lemma create_session_eq E st :
  create_session E st =
  let u := str_uuid (uuid4 E (trace st)) in
  let r := create_request (api_url (obj st)) u in
  let st' := log (EvHttp r) (with_id st (Some u)) in
  match creation E st with
  | NetRaises e => (Raise e, st')
  | Response s b =>
      if (400 <=? s) && (s <? 600) then (Raise (HTTPError s), st')
      else
        match b with
        | None => (Raise JSONDecodeError, st')
        | Some (VDict m) =>
            let c := default default_cdp_url (m !! "websocketUrl") in
            (Ret c, with_result st' (VDict m) c)
        | Some d => (Raise AttributeError, with_result st' d (cdp_url (obj st)))
        end
  end.
Proof.
  unfold creation, create_session, new_uuid, set_session_id, set_session_data, set_cdp_url,
    get_self, set_self, requests_post, send, create_request, dict_get.
  unfold mbind, M_bind, mret, M_ret.
  cbn zeta. cbn [obj trace local_browser api_url].
  destruct (net E (trace st) _) as [s b|e]; [|reflexivity].
  unfold raise_for_status. cbn [fst snd].
  destruct ((400 <=? s) && (s <? 600)); [reflexivity|].
  unfold response_json, mret, M_ret. cbn [fst snd].
  destruct b as [d|]; [|reflexivity].
  destruct d; reflexivity.
Qed.

(** ** Creation *)

(** C1, as stated, fails: a 200 response whose object has no
    [websocketUrl] field makes [create_session] return the built-in
    default endpoint, which is not a field of the response. *)
Lemma create_session_default_endpoint_cex :
  creation no_endpoint (initial local_api) = Response 200 empty_body /\
  200 <= 200 < 300 /\
  websocket_field empty_body = None /\
  fst (create_session no_endpoint (initial local_api)) = Ret (VStr "ws://localhost:3000/") /\
  ~ (exists c, fst (create_session no_endpoint (initial local_api)) = Ret c /\
               websocket_field empty_body = Some c).
Proof.
  repeat split; try reflexivity; try lia.
  intros (c & _ & H). vm_compute in H. discriminate H.
Qed.

(** C1 (amended): for every 2xx response whose body is a JSON object,
    [create_session] returns and stores as connection endpoint the
    object's [websocketUrl] field when there is one and the default
    [ws://localhost:3000/] when there is none; the session is then
    [Active] unless that value is None, and the endpoint is a non-empty
    string whenever the field is absent or a non-empty string. *)
Theorem create_session_endpoint E st s m :
  creation E st = Response s (Some (VDict m)) ->
  200 <= s < 300 ->
  let c := default default_cdp_url (m !! "websocketUrl") in
  let st' := snd (create_session E st) in
  fst (create_session E st) = Ret c /\
  cdp_url (obj st') = c /\
  websocket_field (Some (VDict m)) = m !! "websocketUrl" /\
  (c <> VNone -> state_of (obj st') = Active) /\
  (m !! "websocketUrl" = None ->
     c = VStr "ws://localhost:3000/" /\ state_of (obj st') = Active) /\
  (forall w, m !! "websocketUrl" = Some (VStr w) -> w <> "" ->
     c = VStr w /\ state_of (obj st') = Active).
Proof.
  intros Hnet Hs c st'. subst st'. rewrite create_session_eq, Hnet. cbn zeta.
  replace ((400 <=? s) && (s <? 600)) with false
    by (symmetry; apply andb_false_iff; left; apply Z.leb_gt; lia).
  cbn [fst snd with_result obj cdp_url]. fold c.
  set (o := {| api_url := _; session_id := _; cdp_url := c; session_data := _ |}).
  assert (Hact : c <> VNone -> state_of o = Active).
  { unfold state_of, o. cbn [cdp_url]. destruct c; congruence. }
  split; [reflexivity|]. split; [reflexivity|]. split; [reflexivity|].
  split; [exact Hact|]. split.
  - intros Hm. assert (Hc : c = VStr "ws://localhost:3000/") by (subst c; rewrite Hm; reflexivity).
    split; [exact Hc|]. apply Hact. rewrite Hc. discriminate.
  - intros w Hm _. assert (Hc : c = VStr w) by (subst c; rewrite Hm; reflexivity).
    split; [exact Hc|]. apply Hact. rewrite Hc. discriminate.
Qed.

Lemma create_session_endpoint_witness :
  creation happy (initial local_api) =
    Response 201 (Some (VDict {[ "websocketUrl" := VStr "ws://svc/cdp/S1" ]})) /\
  200 <= 201 < 300 /\
  fst (create_session happy (initial local_api)) = Ret (VStr "ws://svc/cdp/S1").
Proof.
  split; [reflexivity|]. split; [lia|].
  refine (proj1 (create_session_endpoint happy (initial local_api) 201
                   {[ "websocketUrl" := VStr "ws://svc/cdp/S1" ]} _ _));
    [reflexivity | lia].
Defined.

(** C2, as stated, fails: 300 is not a 2xx status, yet
    [raise_for_status] lets it pass and [create_session] returns with
    the session [Active]. *)
Lemma create_session_status_300_cex :
  creation multiple_choices (initial local_api) = Response 300 svc_body /\
  ~ (200 <= 300 < 300) /\
  fst (create_session multiple_choices (initial local_api)) = Ret (VStr "ws://svc/cdp/S1") /\
  state_of (obj (initial local_api)) = Uncreated /\
  state_of (obj (snd (create_session multiple_choices (initial local_api)))) = Active.
Proof. repeat split; try reflexivity. lia. Qed.

(** C2 (amended): for every creation call answered with a 4xx or 5xx
    status, [create_session] raises [HTTPError] to its caller after
    that single request (no retry), and the stored endpoint and session
    data, hence the session state, are what they were before. *)
Theorem create_session_http_error E st s b :
  creation E st = Response s b ->
  400 <= s < 600 ->
  let u := str_uuid (uuid4 E (trace st)) in
  let st' := snd (create_session E st) in
  fst (create_session E st) = Raise (HTTPError s) /\
  trace st' = (trace st ++ [EvHttp (create_request (api_url (obj st)) u)])%list /\
  cdp_url (obj st') = cdp_url (obj st) /\
  session_data (obj st') = session_data (obj st) /\
  state_of (obj st') = state_of (obj st).
Proof.
  intros Hnet Hs u st'. subst st'. rewrite create_session_eq, Hnet. cbn zeta.
  replace ((400 <=? s) && (s <? 600)) with true
    by (symmetry; apply andb_true_iff; split; [apply Z.leb_le | apply Z.ltb_lt]; lia).
  repeat split.
Qed.

Lemma create_session_http_error_witness :
  creation unavailable (initial local_api) = Response 503 None /\
  400 <= 503 < 600 /\
  fst (create_session unavailable (initial local_api)) = Raise (HTTPError 503) /\
  state_of (obj (snd (create_session unavailable (initial local_api)))) = Uncreated.
Proof.
  split; [reflexivity|]. split; [lia|].
  pose proof (create_session_http_error unavailable (initial local_api) 503 None
                eq_refl ltac:(lia)) as (H1 & _ & _ & _ & H5).
  split; [exact H1 | exact H5].
Defined.

(** C10: when the creation request fails (a transport error, or a
    status for which [raise_for_status] raises), [create_session]
    raises, [cdp_url] and [session_data] keep their prior values (None
    on a fresh object), and [session_id] already holds the UUID
    generated for that request. *)
Theorem create_session_failure_frame E st :
  creation_fails E st ->
  let st' := snd (create_session E st) in
  (exists e, fst (create_session E st) = Raise e) /\
  cdp_url (obj st') = cdp_url (obj st) /\
  session_data (obj st') = session_data (obj st) /\
  session_id (obj st') = Some (str_uuid (uuid4 E (trace st))) /\
  (forall api, obj st = init api ->
     cdp_url (obj st') = VNone /\ session_data (obj st') = VNone) /\
  trace st' =
    (trace st ++
     [EvHttp (create_request (api_url (obj st)) (str_uuid (uuid4 E (trace st))))])%list.
Proof.
  intros Hf st'. subst st'. unfold creation_fails in Hf. rewrite create_session_eq. cbn zeta.
  assert (Hinit : forall api, obj st = init api ->
            cdp_url (obj st) = VNone /\ session_data (obj st) = VNone)
    by (intros api ->; split; reflexivity).
  destruct (creation E st) as [s b|e].
  - replace ((400 <=? s) && (s <? 600)) with true
      by (symmetry; apply andb_true_iff; split; [apply Z.leb_le | apply Z.ltb_lt]; lia).
    cbn. split; [eauto|]. do 3 (split; [reflexivity|]). split; [exact Hinit | reflexivity].
  - cbn. split; [eauto|]. do 3 (split; [reflexivity|]). split; [exact Hinit | reflexivity].
Qed.

Lemma create_session_failure_frame_witness :
  creation_fails creation_times_out (initial local_api) /\
  (exists e, fst (create_session creation_times_out (initial local_api)) = Raise e) /\
  cdp_url (obj (snd (create_session creation_times_out (initial local_api)))) = VNone /\
  session_data (obj (snd (create_session creation_times_out (initial local_api)))) = VNone /\
  session_id (obj (snd (create_session creation_times_out (initial local_api)))) =
    Some "12345678-1234-5678-1234-567812345678".
Proof.
  assert (Hf : creation_fails creation_times_out (initial local_api)) by exact I.
  split; [exact Hf|].
  destruct (create_session_failure_frame creation_times_out (initial local_api) Hf)
    as (H1 & H2 & H3 & H4 & _).
  split; [exact H1|]. split; [exact H2|]. split; [exact H3|]. exact H4.
Defined.

(** What [create_session] does to the state, whatever the service
    answers. *)
Lemma create_session_state E st :
  let u := str_uuid (uuid4 E (trace st)) in
  let st' := snd (create_session E st) in
  session_id (obj st') = Some u /\
  api_url (obj st') = api_url (obj st) /\
  local_browser st' = local_browser st /\
  trace st' = (trace st ++ [EvHttp (create_request (api_url (obj st)) u)])%list.
Proof.
  intros u st'. subst u st'. rewrite create_session_eq. cbn zeta.
  destruct (creation E st) as [s b|e]; [|repeat split].
  destruct ((400 <=? s) && (s <? 600)); [repeat split|].
  destruct b as [d|]; [|repeat split].
  destruct d; repeat split.
Qed.

(** ** Inspection and release *)

Lemma release_session_returns E st :
  absorbable (net E (trace st) (release_request (api_url (obj st)) (session_id (obj st)))) ->
  fst (release_session E st) = Ret tt.
Proof.
  intros H. rewrite release_session_eq.
  destruct (not_id _); [reflexivity|]. cbn zeta.
  destruct (net E _ _) as [s b|e]; [reflexivity|].
  cbn in H. rewrite H. reflexivity.
Qed.

(** C3: whatever the service answers to the release request (any
    status) and whatever transport failure happens, [release_session]
    returns normally; so does a second call on the same session. *)
Theorem release_session_never_raises E st :
  (forall tr r, absorbable (net E tr r)) ->
  fst (release_session E st) = Ret tt /\
  fst (release_session E (snd (release_session E st))) = Ret tt.
Proof.
  intros H. split; apply release_session_returns, H.
Qed.

Lemma release_session_never_raises_witness :
  (forall tr r, absorbable (net unreachable tr r)) /\
  fst (release_session unreachable (snd (create_session happy (initial local_api)))) = Ret tt /\
  fst (release_session unreachable
         (snd (release_session unreachable (snd (create_session happy (initial local_api))))))
    = Ret tt.
Proof.
  assert (H : forall tr r, absorbable (net unreachable tr r)) by (intros tr r; reflexivity).
  split; [exact H|].
  exact (release_session_never_raises unreachable
           (snd (create_session happy (initial local_api))) H).
Defined.

(** C4: on a session that was never created ([session_id] is None),
    [release_session] returns at once: no request is issued and nothing
    changes. *)
Theorem release_session_uncreated_noop E st :
  session_id (obj st) = None ->
  release_session E st = (Ret tt, st).
Proof.
  intros H. rewrite release_session_eq, H. reflexivity.
Qed.

Lemma release_session_uncreated_noop_witness :
  session_id (obj (initial local_api)) = None /\
  release_session happy (initial local_api) = (Ret tt, initial local_api).
Proof.
  split; [reflexivity|].
  apply (release_session_uncreated_noop happy (initial local_api)). reflexivity.
Defined.

(** C6: whenever the service answers the inspection with a status other
    than 200 (as it does for a session it does not know or has
    released), [get_session_details] returns None and raises nothing;
    the request it issued is the only effect. *)
Theorem get_session_details_absent E st s b :
  net E (trace st) (details_request (api_url (obj st)) (session_id (obj st))) = Response s b ->
  s <> 200 ->
  get_session_details E st =
    (Ret VNone, log (EvHttp (details_request (api_url (obj st)) (session_id (obj st)))) st).
Proof.
  intros Hnet Hs. rewrite get_session_details_eq. cbn zeta. rewrite Hnet.
  replace (s =? 200) with false by (symmetry; apply Z.eqb_neq; exact Hs).
  reflexivity.
Qed.

Lemma get_session_details_absent_witness :
  net unavailable (trace (initial local_api))
    (details_request (api_url (obj (initial local_api)))
       (session_id (obj (initial local_api)))) = Response 503 None /\
  503 <> 200 /\
  fst (get_session_details unavailable (initial local_api)) = Ret VNone.
Proof.
  split; [reflexivity|]. split; [lia|].
  rewrite (get_session_details_absent unavailable (initial local_api) 503 None);
    [reflexivity | reflexivity | lia].
Defined.

(** ** The session id as correlation key *)

Lemma run_call_state E st bits c :
  session_id (obj st) = Some (str_uuid bits) ->
  obj (run_call E st c) = obj st /\
  local_browser (run_call E st c) = local_browser st /\
  trace (run_call E st c) =
    (trace st ++ [EvHttp (request_of (api_url (obj st)) (str_uuid bits) c)])%list.
Proof.
  intros Hid. destruct c; unfold run_call, request_of.
  - rewrite get_session_details_eq, Hid. cbn zeta.
    destruct (net E _ _) as [s b|e]; [|repeat split].
    destruct (s =? 200); [|repeat split].
    destruct b; repeat split.
  - rewrite release_session_eq, Hid, not_id_uuid. cbn zeta.
    destruct (net E _ _) as [s b|e]; [repeat split|].
    destruct (is_Exception e); repeat split.
Qed.

Lemma run_calls_state E bits cs : forall st,
  session_id (obj st) = Some (str_uuid bits) ->
  obj (run_calls E cs st) = obj st /\
  trace (run_calls E cs st) =
    (trace st ++ map (fun c => EvHttp (request_of (api_url (obj st)) (str_uuid bits) c)) cs)%list.
Proof.
  induction cs as [|c cs IH]; intros st Hid.
  - cbn. rewrite app_nil_r. split; reflexivity.
  - destruct (run_call_state E st bits c Hid) as (Ho & _ & Ht).
    change (run_calls E (c :: cs) st) with (run_calls E cs (run_call E st c)).
    destruct (IH (run_call E st c)) as (Ho' & Ht'); [rewrite Ho; exact Hid|].
    split; [rewrite Ho', Ho; reflexivity|].
    rewrite Ht', Ht, Ho. cbn [map]. rewrite <- app_assoc. reflexivity.
Qed.

(** C8: [create_session] draws the id from the UUID generator before it
    issues the creation request, stores it, and sends it as [sessionId]
    in the body of that request (whatever the outcome of the request);
    every inspection and release that follows, in any number and order,
    addresses exactly this id and leaves the stored id unchanged. *)
Theorem session_id_correlates E st (cs : list later_call) :
  let u := str_uuid (uuid4 E (trace st)) in
  let api := api_url (obj st) in
  let st1 := snd (create_session E st) in
  let st2 := run_calls E cs st1 in
  json_body (create_request api u) = Some (VDict {[ "sessionId" := VStr u ]}) /\
  session_id (obj st1) = Some u /\
  trace st1 = (trace st ++ [EvHttp (create_request api u)])%list /\
  session_id (obj st2) = Some u /\
  trace st2 = (trace st1 ++ map (fun c => EvHttp (request_of api u c)) cs)%list.
Proof.
  intros u api st1 st2.
  destruct (create_session_state E st) as (Hid & Hapi & _ & Htr).
  fold u st1 in Hid, Hapi, Htr. fold api in Hapi, Htr.
  destruct (run_calls_state E (uuid4 E (trace st)) cs st1 Hid) as (Ho & Ht).
  fold st2 in Ho, Ht. rewrite Hapi in Ht. fold u in Ht.
  split; [reflexivity|]. split; [exact Hid|]. split; [exact Htr|].
  split; [rewrite Ho; exact Hid | exact Ht].
Qed.

(** ** Invariants of a run *)

Create HintDb keeps.

Section Keeps.

Variable E : env.
Variable I : state -> Prop.

Lemma bind_state {A B : Type} (m : M A) (f : A -> M B) st :
  I (snd (m st)) -> (forall a, keeps I (f a)) -> I (snd ((m ≫= f) st)).
Proof.
  intros Hm Hf. unfold mbind, M_bind.
  destruct (m st) as [[a|e] st']; cbn in *; [apply Hf; exact Hm | exact Hm].
Qed.

Lemma keeps_bind {A B : Type} (m : M A) (f : A -> M B) :
  keeps I m -> (forall a, keeps I (f a)) -> keeps I (m ≫= f).
Proof. intros Hm Hf st HI. apply bind_state; [apply Hm; exact HI | exact Hf]. Qed.

Lemma keeps_ret {A : Type} (a : A) : keeps I (mret a).
Proof. intros st HI. exact HI. Qed.

Lemma keeps_raise {A : Type} (e : exn) : keeps I (@raise A e).
Proof. intros st HI. exact HI. Qed.

Lemma try_except_state {A : Type} (body : M A) (handler : exn -> M A) st :
  I (snd (body st)) -> (forall e, keeps I (handler e)) -> I (snd (try_except body handler st)).
Proof.
  intros Hb Hh. unfold try_except.
  destruct (body st) as [[a|e] st']; cbn in *; [exact Hb|].
  destruct (is_Exception e); [apply Hh; exact Hb | exact Hb].
Qed.

Lemma keeps_try_except {A : Type} (body : M A) (handler : exn -> M A) :
  keeps I body -> (forall e, keeps I (handler e)) -> keeps I (try_except body handler).
Proof. intros Hb Hh st HI. apply try_except_state; [apply Hb; exact HI | exact Hh]. Qed.

Lemma keeps_get_self : keeps I get_self.
Proof. intros st HI. exact HI. Qed.

Lemma keeps_get_browser : keeps I get_browser.
Proof. intros st HI. exact HI. Qed.

Lemma keeps_raise_for_status r : keeps I (raise_for_status r).
Proof. unfold raise_for_status. destruct (_ && _); intros st HI; exact HI. Qed.

Lemma keeps_response_json r : keeps I (response_json r).
Proof. unfold response_json. destruct (snd r); intros st HI; exact HI. Qed.

Lemma keeps_dict_get v k d : keeps I (dict_get v k d).
Proof. destruct v; intros st HI; exact HI. Qed.

Lemma keeps_subscript v k : keeps I (subscript v k).
Proof.
  destruct v; try (intros st HI; exact HI).
  unfold subscript. destruct (m !! k); intros st HI; exact HI.
Qed.

(** The invariants below survive any new event and any rebinding of the
    local [browser]. *)
Hypothesis I_log : forall st ev, I st -> I (log ev st).
Hypothesis I_browser : forall o b tr b', I (MkState o b tr) -> I (MkState o b' tr).

Lemma keeps_send r : keeps I (send E r).
Proof.
  intros st HI. unfold send. destruct (net E (trace st) r); cbn; apply I_log, HI.
Qed.

Lemma keeps_call c : keeps I (call E c).
Proof.
  intros st HI. unfold call. destruct (ext E (trace st) c); cbn; apply I_log, HI.
Qed.

Lemma keeps_set_browser b : keeps I (set_browser b).
Proof. intros [o b0 tr] HI. cbn. eapply I_browser, HI. Qed.

Lemma keeps_get_session_details : keeps I (get_session_details E).
Proof.
  intros st HI. rewrite get_session_details_eq. cbn zeta.
  destruct (net E _ _) as [s b|e]; [|apply I_log, HI].
  destruct (s =? 200); [|apply I_log, HI].
  destruct b; apply I_log, HI.
Qed.

Lemma keeps_release_session : keeps I (release_session E).
Proof.
  intros st HI. rewrite release_session_eq.
  destruct (not_id _); [exact HI|]. cbn zeta.
  destruct (net E _ _) as [s b|e]; [apply I_log, HI|].
  destruct (is_Exception e); apply I_log, HI.
Qed.

End Keeps.

#[export] Hint Resolve keeps_ret keeps_raise keeps_get_self keeps_get_browser
  keeps_raise_for_status keeps_response_json keeps_dict_get keeps_subscript
  keeps_send keeps_call keeps_set_browser keeps_get_session_details
  keeps_release_session : keeps.

(** Solve a [keeps] goal by following the binds of the program. *)
Ltac keeps_tac :=
  repeat first
    [ apply keeps_bind; [|intros ?]
    | apply keeps_try_except; [|intros ?]
    | match goal with |- keeps _ (if ?b then _ else _) => destruct b end
    | match goal with |- keeps _ (match ?b with Some _ => _ | None => _ end) => destruct b end
    | solve [eauto with keeps] ].

(** ** The automation task *)

Lemma session_of_log api u tr0 st ev :
  session_of api u tr0 st -> session_of api u tr0 (log ev st).
Proof.
  intros (Ha & Hi & l & Hl). repeat split; [exact Ha | exact Hi |].
  exists (l ++ [ev])%list. cbn. rewrite Hl, app_assoc. reflexivity.
Qed.

Lemma session_of_browser api u tr0 o b tr b' :
  session_of api u tr0 (MkState o b tr) -> session_of api u tr0 (MkState o b' tr).
Proof. intros H. exact H. Qed.

#[export] Hint Resolve session_of_log session_of_browser : keeps.

Lemma close_browser_eq E st :
  close_browser E st =
  match local_browser st with
  | None => (Ret tt, st)
  | Some _ =>
      match ext E (trace st) BrowserClose with
      | Returns => (Ret tt, log (EvExt BrowserClose) st)
      | ExtRaises e =>
          if is_Exception e then (Ret tt, log (EvExt BrowserClose) st)
          else (Raise e, log (EvExt BrowserClose) st)
      end
  end.
Proof.
  unfold close_browser, try_except, get_browser, mbind, M_bind.
  destruct (local_browser st); [|reflexivity].
  unfold call. destruct (ext E (trace st) BrowserClose); reflexivity.
Qed.

(** The cleanup path on a session that has an id: the browser, when
    there is one, is closed, and then the release request is sent. *)
Lemma cleanup_state E st bits :
  close_settles E ->
  session_id (obj st) = Some (str_uuid bits) ->
  let st' := snd (cleanup E st) in
  obj st' = obj st /\
  local_browser st' = local_browser st /\
  trace st' =
    (trace st ++ closing (local_browser st) ++
     [EvHttp (release_request (api_url (obj st)) (Some (str_uuid bits)))])%list.
Proof.
  intros Hc Hid st'. subst st'. unfold cleanup, mbind, M_bind.
  rewrite close_browser_eq.
  assert (Hrel : forall s, session_id (obj s) = Some (str_uuid bits) ->
            obj (snd (release_session E s)) = obj s /\
            local_browser (snd (release_session E s)) = local_browser s /\
            trace (snd (release_session E s)) =
              (trace s ++ [EvHttp (release_request (api_url (obj s)) (Some (str_uuid bits)))])%list)
    by (intros s Hs; exact (run_call_state E s bits Release Hs)).
  destruct (local_browser st) as [b|] eqn:Hb.
  - specialize (Hc (trace st)).
    destruct (ext E (trace st) BrowserClose) as [|e]; [|rewrite Hc];
      destruct (Hrel (log (EvExt BrowserClose) st) Hid) as (Ho & Hl & Ht);
      (split; [exact Ho|]); (split; [rewrite Hl; exact Hb|]);
      rewrite Ht; cbn; rewrite <- app_assoc; reflexivity.
  - destruct (Hrel st Hid) as (Ho & Hl & Ht).
    split; [exact Ho|]. split; [rewrite Hl; exact Hb|]. exact Ht.
Qed.

Lemma try_finally_state {A : Type} (body : M A) (fin : M unit) st :
  snd (try_finally body fin st) = snd (fin (snd (body st))).
Proof.
  unfold try_finally. destruct (body st) as [r st']. cbn.
  destruct (fin st') as [[[]|e] st'']; reflexivity.
Qed.

(** Whatever happens in the automation phase, it ends with the session
    id assigned. *)
Lemma agent_phase_state E st :
  session_of (api_url (obj st)) (str_uuid (uuid4 E (trace st))) (trace st)
    (snd (try_except (agent_phase E) (fun _ => mret tt) st)).
Proof.
  apply try_except_state; [|intros e; apply keeps_ret].
  unfold agent_phase. apply bind_state.
  - destruct (create_session_state E st) as (Hid & Hapi & _ & Htr).
    repeat split; [exact Hapi | exact Hid | eexists; exact Htr].
  - intros cdp. keeps_tac.
Qed.

(** The run ends in the state the cleanup path leaves, entered from
    wherever the automation phase stopped. *)
Lemma run_ai_agent_task_state E api st0 :
  snd (run_ai_agent_task E api st0) =
  snd (cleanup E
         (snd (try_except (agent_phase E) (fun _ => mret tt)
                 {| obj := init api; local_browser := None; trace := trace st0 |}))).
Proof.
  unfold run_ai_agent_task, new_session.
  unfold mbind at 1 2. unfold M_bind, set_self, set_browser. cbn [obj local_browser trace].
  apply try_finally_state.
Qed.

(** As long as [browser.close()] returns or fails with an [Exception],
    the cleanup path runs to its end whatever the automation phase did
    (it completed, a collaborator or the service failed, or the task
    was cancelled while it waited): the browser, if the local is bound,
    is closed, and right after that [release_session] sends the release
    request of the run's session. *)
Theorem cleanup_always_runs E api st0 :
  close_settles E ->
  let u := str_uuid (uuid4 E (trace st0)) in
  let st' := snd (run_ai_agent_task E api st0) in
  exists pre,
    trace st' =
      (trace st0 ++ pre ++ closing (local_browser st') ++
       [EvHttp (release_request api (Some u))])%list.
Proof.
  intros Hc u st'. subst st'. rewrite run_ai_agent_task_state.
  set (st1 := {| obj := init api; local_browser := None; trace := trace st0 |}).
  pose proof (agent_phase_state E st1) as (Hapi & Hid & l & Hl).
  cbn [st1 obj trace init api_url] in Hapi, Hid, Hl. fold u in Hid.
  destruct (cleanup_state E _ (uuid4 E (trace st0)) Hc Hid) as (_ & Hb & Ht).
  exists l. rewrite Ht, Hb, Hapi, Hl. fold u. rewrite <- app_assoc. reflexivity.
Qed.

Lemma cleanup_always_runs_witness :
  close_settles cancelled /\
  exists pre,
    trace (snd (run_ai_agent_task cancelled local_api (initial local_api))) =
      (pre ++ [EvExt BrowserClose] ++ [EvHttp (release_request local_api (Some sample_id))])%list.
Proof.
  assert (H : close_settles cancelled) by (intros tr; exact I).
  split; [exact H|].
  exact (cleanup_always_runs cancelled local_api (initial local_api) H).
Defined.

(** The cancellation itself still reaches the caller, after the cleanup. *)
Example cancelled_run :
  run_ai_agent_task cancelled local_api (initial local_api) =
  (Raise CancelledError,
   {| obj := {| api_url := local_api; session_id := Some sample_id;
                cdp_url := VStr "ws://svc/cdp/S1";
                session_data := VDict {[ "websocketUrl" := VStr "ws://svc/cdp/S1" ]} |};
      local_browser := Some (MkBrowser (VStr "ws://svc/cdp/S1"));
      trace := [EvHttp (create_request local_api sample_id);
                EvExt (BrowserCtor (VStr "ws://svc/cdp/S1"));
                EvExt ChatAnthropicCtor; EvExt AgentCtor; EvExt AgentRun;
                EvExt BrowserClose;
                EvHttp (release_request local_api (Some sample_id))] |}).
Proof. vm_compute. reflexivity. Qed.

(** An exception of the agent is caught by the task; the cleanup follows. *)
Example agent_failure_run :
  run_ai_agent_task
    (scripted sample_bits [Response 201 svc_body; Response 200 None] agent_fails)
    local_api (initial local_api) =
  (Ret tt,
   {| obj := {| api_url := local_api; session_id := Some sample_id;
                cdp_url := VStr "ws://svc/cdp/S1";
                session_data := VDict {[ "websocketUrl" := VStr "ws://svc/cdp/S1" ]} |};
      local_browser := Some (MkBrowser (VStr "ws://svc/cdp/S1"));
      trace := [EvHttp (create_request local_api sample_id);
                EvExt (BrowserCtor (VStr "ws://svc/cdp/S1"));
                EvExt ChatAnthropicCtor; EvExt AgentCtor; EvExt AgentRun;
                EvExt BrowserClose;
                EvHttp (release_request local_api (Some sample_id))] |}).
Proof. vm_compute. reflexivity. Qed.

(** A cancellation of the agent followed by a second one during
    [browser.close()]: the cleanup is left before the release. *)
Example cancelled_twice_run :
  trace (snd (run_ai_agent_task cancelled_twice local_api (initial local_api))) =
  [EvHttp (create_request local_api sample_id);
   EvExt (BrowserCtor (VStr "ws://svc/cdp/S1"));
   EvExt ChatAnthropicCtor; EvExt AgentCtor; EvExt AgentRun;
   EvExt BrowserClose].
Proof. vm_compute. reflexivity. Qed.

(** The handler around [browser.close()] is [except Exception]: when the
    close ends in anything else, the cleanup path stops there and
    [release_session] is not reached. *)
Lemma cleanup_interrupted E st b e :
  local_browser st = Some b ->
  ext E (trace st) BrowserClose = ExtRaises e ->
  is_Exception e = false ->
  cleanup E st = (Raise e, log (EvExt BrowserClose) st).
Proof.
  intros Hb He Hn. unfold cleanup, mbind, M_bind.
  rewrite close_browser_eq, Hb, He, Hn. reflexivity.
Qed.

(** C7 does not hold of [run_ai_agent_task]: the cleanup path does not
    run to its end on every exit path.  Here the automation phase
    completes and the task is cancelled while the cleanup awaits
    [browser.close()]; the [CancelledError] is no [Exception], so it
    passes the handler around the close and leaves the [finally] block
    before [release_session] is called: the run ends with the close,
    no release request is sent, and the session stays allocated. *)
Theorem cancelled_close_skips_release :
  ext cancelled_at_close
    [EvHttp (create_request local_api sample_id);
     EvExt (BrowserCtor (VStr "ws://svc/cdp/S1"));
     EvExt ChatAnthropicCtor; EvExt AgentCtor; EvExt AgentRun;
     EvHttp (details_request local_api (Some sample_id));
     EvExt (Sleep 5)]
    BrowserClose = ExtRaises CancelledError /\
  run_ai_agent_task cancelled_at_close local_api (initial local_api) =
  (Raise CancelledError,
   {| obj := {| api_url := local_api; session_id := Some sample_id;
                cdp_url := VStr "ws://svc/cdp/S1";
                session_data := VDict {[ "websocketUrl" := VStr "ws://svc/cdp/S1" ]} |};
      local_browser := Some (MkBrowser (VStr "ws://svc/cdp/S1"));
      trace := [EvHttp (create_request local_api sample_id);
                EvExt (BrowserCtor (VStr "ws://svc/cdp/S1"));
                EvExt ChatAnthropicCtor; EvExt AgentCtor; EvExt AgentRun;
                EvHttp (details_request local_api (Some sample_id));
                EvExt (Sleep 5);
                EvExt BrowserClose] |}) /\
  ~ In (EvHttp (release_request local_api (Some sample_id)))
       (trace (snd (run_ai_agent_task cancelled_at_close local_api (initial local_api)))).
Proof.
  assert (Hrun : run_ai_agent_task cancelled_at_close local_api (initial local_api) =
    (Raise CancelledError,
     {| obj := {| api_url := local_api; session_id := Some sample_id;
                  cdp_url := VStr "ws://svc/cdp/S1";
                  session_data := VDict {[ "websocketUrl" := VStr "ws://svc/cdp/S1" ]} |};
        local_browser := Some (MkBrowser (VStr "ws://svc/cdp/S1"));
        trace := [EvHttp (create_request local_api sample_id);
                  EvExt (BrowserCtor (VStr "ws://svc/cdp/S1"));
                  EvExt ChatAnthropicCtor; EvExt AgentCtor; EvExt AgentRun;
                  EvHttp (details_request local_api (Some sample_id));
                  EvExt (Sleep 5);
                  EvExt BrowserClose] |})) by (vm_compute; reflexivity).
  split; [reflexivity|]. split; [exact Hrun|].
  rewrite Hrun. cbn [snd trace]. intros Hin.
  repeat (destruct Hin as [Hin|Hin]; [discriminate Hin|]). exact Hin.
Qed.

(** ** A failed creation *)

(** C5 does not hold of [run_ai_agent_task]: the creation request times
    out, the error is caught by the task, and the cleanup path still
    sends a release request, for the id that [create_session] stored
    before it sent the creation request. *)
Theorem failed_creation_still_releases :
  creation creation_times_out (initial local_api) = NetRaises RequestsTimeout /\
  fst (create_session creation_times_out (initial local_api)) = Raise RequestsTimeout /\
  run_ai_agent_task creation_times_out local_api (initial local_api) =
  (Ret tt,
   {| obj := {| api_url := local_api; session_id := Some sample_id;
                cdp_url := VNone; session_data := VNone |};
      local_browser := None;
      trace := [EvHttp (create_request local_api sample_id);
                EvHttp (release_request local_api (Some sample_id))] |}).
Proof. repeat split; vm_compute; reflexivity. Qed.

(** The same for every failure of the creation that [except Exception]
    catches. *)
Lemma failed_creation_releases E api st0 :
  let st1 := {| obj := init api; local_browser := None; trace := trace st0 |} in
  let u := str_uuid (uuid4 E (trace st0)) in
  creation_fails E st1 ->
  (forall e, creation E st1 = NetRaises e -> is_Exception e = true) ->
  trace (snd (run_ai_agent_task E api st0)) =
    (trace st0 ++ [EvHttp (create_request api u); EvHttp (release_request api (Some u))])%list.
Proof.
  intros st1 u Hf He. rewrite run_ai_agent_task_state. fold st1.
  assert (Hb : snd (try_except (agent_phase E) (fun _ => mret tt) st1) =
               log (EvHttp (create_request api u)) (with_id st1 (Some u))).
  { unfold try_except, agent_phase. unfold mbind at 1. unfold M_bind at 1.
    rewrite create_session_eq. cbn zeta. unfold creation_fails in Hf.
    change (str_uuid (uuid4 E (trace st1))) with u.
    change (api_url (obj st1)) with api.
    destruct (creation E st1) as [s b|e].
    - replace ((400 <=? s) && (s <? 600)) with true
        by (symmetry; apply andb_true_iff; split; [apply Z.leb_le | apply Z.ltb_lt]; lia).
      reflexivity.
    - rewrite (He e eq_refl). reflexivity. }
  rewrite Hb. set (st2 := log (EvHttp (create_request api u)) (with_id st1 (Some u))).
  unfold cleanup, mbind, M_bind. rewrite close_browser_eq.
  change (local_browser st2) with (@None Browser). cbn iota.
  destruct (run_call_state E st2 (uuid4 E (trace st0)) Release eq_refl) as (_ & _ & Ht).
  cbn [run_call] in Ht. rewrite Ht. cbn. rewrite <- app_assoc. reflexivity.
Qed.

Lemma bind_run {A B : Type} (m : M A) (f : A -> M B) st :
  (m ≫= f) st =
  match m st with
  | (Ret a, st') => f a st'
  | (Raise e, st') => (Raise e, st')
  end.
Proof. reflexivity. Qed.

(** The connection-only path has no cleanup block: there a failed
    creation ends the run, and no release request follows. *)
Lemma test_basic_connection_failure E api st0 :
  let st1 := {| obj := init api; local_browser := None; trace := trace st0 |} in
  creation_fails E st1 ->
  (exists e, fst (test_basic_connection E api st0) = Raise e) /\
  trace (snd (test_basic_connection E api st0)) =
    (trace st0 ++ [EvHttp (create_request api (str_uuid (uuid4 E (trace st0))))])%list.
Proof.
  intros st1 Hf. unfold test_basic_connection, new_session.
  rewrite !bind_run. unfold set_self, set_browser. cbn [obj local_browser trace]. fold st1.
  rewrite bind_run, create_session_eq. cbn zeta. unfold creation_fails in Hf.
  destruct (creation E st1) as [s b|e].
  - replace ((400 <=? s) && (s <? 600)) with true
      by (symmetry; apply andb_true_iff; split; [apply Z.leb_le | apply Z.ltb_lt]; lia).
    split; [eexists; reflexivity | reflexivity].
  - split; [eexists; reflexivity | reflexivity].
Qed.

(** ** Timeouts *)

(** The three requests of [SteelBrowserSession] carry the timeouts 30,
    10 and 10. *)
Lemma session_request_timeouts api u i :
  timeout (create_request api u) = Some 30 /\
  timeout (details_request api i) = Some 10 /\
  timeout (release_request api i) = Some 10.
Proof. repeat split. Qed.

Lemma continues_log tr0 ev st ev' :
  continues tr0 ev st -> continues tr0 ev (log ev' st).
Proof.
  intros (rest & H). exists (rest ++ [ev'])%list. cbn. rewrite H, <- app_assoc. reflexivity.
Qed.

Lemma continues_browser tr0 ev o b tr b' :
  continues tr0 ev (MkState o b tr) -> continues tr0 ev (MkState o b' tr).
Proof. intros H. exact H. Qed.

#[export] Hint Resolve continues_log continues_browser : keeps.

(** C9 does not hold of simple-test.py: in every run of
    [test_steel_cdp] the first thing that happens is a creation request
    sent without any timeout. *)
Theorem test_steel_cdp_no_timeout E st :
  let r := cdp_create_request (str_uuid (uuid4 E (trace st))) in
  timeout r = None /\
  exists rest, trace (snd (test_steel_cdp E st)) = (trace st ++ EvHttp r :: rest)%list.
Proof.
  intros r. split; [reflexivity|].
  change (continues (trace st) (EvHttp r) (snd (test_steel_cdp E st))).
  unfold test_steel_cdp. rewrite bind_run. unfold new_uuid. fold r.
  apply bind_state.
  - unfold requests_post. change (send E _ st) with (send E r st). unfold send.
    exists []. destruct (net E (trace st) r); reflexivity.
  - intros response. keeps_tac.
Qed.

(** A complete run of simple-test.py: neither of its two requests has a
    timeout. *)
Example test_steel_cdp_run :
  let body := Some (VDict (<[ "sessionViewerUrl" := VStr "http://svc/view/S1" ]>
                             {[ "websocketUrl" := VStr "ws://svc/cdp/S1" ]})) in
  test_steel_cdp (scripted sample_bits [Response 201 body; Response 200 None] all_return)
    (initial local_api) =
  (Ret tt,
   {| obj := init local_api; local_browser := None;
      trace := [EvHttp (cdp_create_request sample_id);
                EvExt (Playwright (VStr "ws://svc/cdp/S1"));
                EvHttp (cdp_release_request sample_id)] |}).
Proof. vm_compute. reflexivity. Qed.

(** * Further properties of the scripts *)

(** ** create_session *)

Lemma error_status_true s : 400 <= s < 600 -> (400 <=? s) && (s <? 600) = true.
Proof. intros H. apply andb_true_iff. split; [apply Z.leb_le | apply Z.ltb_lt]; lia. Qed.

Lemma error_status_false s : ~ 400 <= s < 600 -> (400 <=? s) && (s <? 600) = false.
Proof.
  intros H. destruct (400 <=? s) eqn:H1; [|reflexivity].
  destruct (s <? 600) eqn:H2; [|reflexivity].
  apply Z.leb_le in H1. apply Z.ltb_lt in H2. lia.
Qed.

(** X1: [create_session] returns exactly when the service answers with a
    status outside 400..599 and a JSON object; what it returns is then
    the object's [websocketUrl], or the default when the object has
    none.  In every other case it raises. *)
Theorem create_session_returns_iff E st c :
  fst (create_session E st) = Ret c <->
  exists s m, creation E st = Response s (Some (VDict m)) /\
              ~ 400 <= s < 600 /\
              c = default default_cdp_url (m !! "websocketUrl").
Proof.
  rewrite create_session_eq. cbn zeta. split.
  - destruct (creation E st) as [s b|e]; [|discriminate].
    destruct ((400 <=? s) && (s <? 600)) eqn:Hs; [discriminate|].
    destruct b as [d|]; [|discriminate].
    destruct d; try discriminate.
    cbn. intros [= <-]. exists s, m. split; [reflexivity|]. split; [|reflexivity].
    intros H. apply error_status_true in H. congruence.
  - intros (s & m & -> & Hs & ->). rewrite (error_status_false s Hs). reflexivity.
Qed.

(** X2: whenever [create_session] returns, the object holds what was
    returned: [cdp_url] is the returned endpoint, [session_data] is the
    JSON object of the answer, [session_id] is the id that was sent, and
    [api_url] is untouched. *)
Theorem create_session_stores E st c :
  fst (create_session E st) = Ret c ->
  let st' := snd (create_session E st) in
  cdp_url (obj st') = c /\
  (exists s m, creation E st = Response s (Some (VDict m)) /\
               session_data (obj st') = VDict m) /\
  session_id (obj st') = Some (str_uuid (uuid4 E (trace st))) /\
  api_url (obj st') = api_url (obj st).
Proof.
  intros H st'. subst st'. revert H. rewrite create_session_eq. cbn zeta.
  destruct (creation E st) as [s b|e]; [|discriminate].
  destruct ((400 <=? s) && (s <? 600)); [discriminate|].
  destruct b as [d|]; [|discriminate].
  destruct d; try discriminate.
  cbn. intros [= <-]. split; [reflexivity|]. split; [|split; reflexivity].
  exists s, m. split; reflexivity.
Qed.

Lemma create_session_stores_witness :
  fst (create_session happy (initial local_api)) = Ret (VStr "ws://svc/cdp/S1") /\
  cdp_url (obj (snd (create_session happy (initial local_api)))) = VStr "ws://svc/cdp/S1" /\
  session_id (obj (snd (create_session happy (initial local_api)))) = Some sample_id.
Proof.
  assert (H : fst (create_session happy (initial local_api)) = Ret (VStr "ws://svc/cdp/S1"))
    by reflexivity.
  split; [exact H|].
  destruct (create_session_stores happy (initial local_api) _ H) as (H1 & _ & H3 & _).
  split; [exact H1 | exact H3].
Defined.

(** X3: an answer that passes the status test but is no JSON object
    makes [create_session] raise after the id is stored.  A body that is
    not JSON raises [JSONDecodeError] with [session_data] and [cdp_url]
    untouched; a JSON value that is not an object is first stored in
    [session_data], then [.get] raises [AttributeError] and [cdp_url]
    is left as it was. *)
Theorem create_session_bad_body E st s b :
  creation E st = Response s b ->
  ~ 400 <= s < 600 ->
  (forall m, b <> Some (VDict m)) ->
  let st' := snd (create_session E st) in
  fst (create_session E st) =
    Raise (match b with None => JSONDecodeError | Some _ => AttributeError end) /\
  session_data (obj st') = match b with None => session_data (obj st) | Some d => d end /\
  cdp_url (obj st') = cdp_url (obj st) /\
  session_id (obj st') = Some (str_uuid (uuid4 E (trace st))).
Proof.
  intros Hnet Hs Hb st'. subst st'. rewrite create_session_eq, Hnet. cbn zeta.
  rewrite (error_status_false s Hs).
  destruct b as [d|]; [|repeat split].
  destruct d; try (repeat split; fail).
  exfalso. exact (Hb m eq_refl).
Qed.

Lemma create_session_bad_body_witness :
  creation list_body (initial local_api) = Response 200 (Some (VList [])) /\
  ~ 400 <= 200 < 600 /\
  (forall m, Some (VList []) <> Some (VDict m)) /\
  fst (create_session list_body (initial local_api)) = Raise AttributeError /\
  session_data (obj (snd (create_session list_body (initial local_api)))) = VList [] /\
  cdp_url (obj (snd (create_session list_body (initial local_api)))) = VNone.
Proof.
  assert (H1 : creation list_body (initial local_api) = Response 200 (Some (VList [])))
    by reflexivity.
  assert (H2 : ~ 400 <= 200 < 600) by lia.
  assert (H3 : forall m, Some (VList []) <> Some (VDict m)) by (intros m; discriminate).
  split; [exact H1|]. split; [exact H2|]. split; [exact H3|].
  destruct (create_session_bad_body list_body (initial local_api) 200 (Some (VList []))
              H1 H2 H3) as (R1 & R2 & R3 & _).
  split; [exact R1|]. split; [exact R2 | exact R3].
Defined.

(** ** get_session_details *)

(** X4: [get_session_details] never changes the object.  Whatever the
    outcome, its one effect is a single GET, with timeout 10, for the
    stored id; on an object without an id the path ends in the text
    [None], the request is still sent. *)
Theorem get_session_details_frame E st :
  let st' := snd (get_session_details E st) in
  obj st' = obj st /\
  local_browser st' = local_browser st /\
  trace st' =
    (trace st ++ [EvHttp (details_request (api_url (obj st)) (session_id (obj st)))])%list /\
  timeout (details_request (api_url (obj st)) (session_id (obj st))) = Some 10 /\
  (session_id (obj st) = None ->
     url (details_request (api_url (obj st)) (session_id (obj st))) =
       api_url (obj st) +:+ "/v1/sessions/None").
Proof.
  intros st'. subst st'. rewrite get_session_details_eq. cbn zeta.
  assert (Hu : session_id (obj st) = None ->
            url (details_request (api_url (obj st)) (session_id (obj st))) =
              api_url (obj st) +:+ "/v1/sessions/None") by (intros ->; reflexivity).
  destruct (net E _ _) as [s b|e]; [|repeat split; exact Hu].
  destruct (s =? 200); [|repeat split; exact Hu].
  destruct b; repeat split; exact Hu.
Qed.

(** X5: [get_session_details] has no handler of its own: it raises
    exactly when the GET itself fails (the failure is passed on as it
    is) or when a 200 answer has a body that is not JSON; a 200 answer
    with a JSON body returns that body, whatever its shape. *)
Theorem get_session_details_raises_iff E st e :
  let o := net E (trace st) (details_request (api_url (obj st)) (session_id (obj st))) in
  (fst (get_session_details E st) = Raise e <->
     o = NetRaises e \/ (o = Response 200 None /\ e = JSONDecodeError)) /\
  (forall v, o = Response 200 (Some v) -> fst (get_session_details E st) = Ret v).
Proof.
  intros o. subst o. rewrite get_session_details_eq. cbn zeta.
  destruct (net E _ _) as [s b|e0].
  - destruct (s =? 200) eqn:Hs.
    + apply Z.eqb_eq in Hs. subst s. destruct b as [v|]; cbn.
      * split; [|intros v' [= <-]; reflexivity].
        split; [discriminate|]. intros [H|[H _]]; discriminate.
      * split; [|intros v' H; discriminate].
        split; [intros [= <-]; right; split; reflexivity|].
        intros [H|[_ ->]]; [discriminate | reflexivity].
    + apply Z.eqb_neq in Hs. cbn. split.
      * split; [discriminate|]. intros [H|[[= H] _]]; [discriminate | congruence].
      * intros v [= H]. congruence.
  - cbn. split; [|intros v H; discriminate].
    split; [intros [= <-]; left; reflexivity|].
    intros [[= <-]|[H _]]; [reflexivity | discriminate].
Qed.

(** ** release_session *)

Lemma release_session_frame E st s :
  session_id (obj st) = Some s -> s <> "" ->
  obj (snd (release_session E st)) = obj st /\
  local_browser (snd (release_session E st)) = local_browser st /\
  trace (snd (release_session E st)) =
    (trace st ++ [EvHttp (release_request (api_url (obj st)) (Some s))])%list.
Proof.
  intros Hid Hs. rewrite release_session_eq, Hid. cbn [not_id].
  replace (String.eqb s "") with false by (symmetry; apply String.eqb_neq; exact Hs).
  cbn zeta. destruct (net E _ _) as [c b|e]; [repeat split|].
  destruct (is_Exception e); repeat split.
Qed.

(** X6: [release_session] never clears the id.  On an object with a
    non-empty id every call, whatever its outcome, sends the same
    release request again and leaves the object as it is: [n] calls in
    a row add [n] copies of that request to the trace. *)
Theorem release_session_repeats E s (n : nat) : forall st,
  session_id (obj st) = Some s -> s <> "" ->
  obj (release_times E n st) = obj st /\
  trace (release_times E n st) =
    (trace st ++ repeat (EvHttp (release_request (api_url (obj st)) (Some s))) n)%list.
Proof.
  induction n as [|n IH]; intros st Hid Hs.
  - cbn. rewrite app_nil_r. split; reflexivity.
  - destruct (IH st Hid Hs) as (Ho & Ht).
    change (release_times E (S n) st) with (snd (release_session E (release_times E n st))).
    set (st1 := release_times E n st) in *.
    destruct (release_session_frame E st1 s) as (Ho' & _ & Ht');
      [rewrite Ho; exact Hid | exact Hs |].
    split; [rewrite Ho'; exact Ho|].
    rewrite Ht', Ht, Ho, <- app_assoc.
    f_equal. change (?x :: repeat ?x n) with (repeat x (S n)).
    symmetry. apply repeat_cons.
Qed.

Lemma release_session_repeats_witness :
  session_id (obj (snd (create_session happy (initial local_api)))) = Some sample_id /\
  sample_id <> "" /\
  trace (release_times unavailable 2 (snd (create_session happy (initial local_api)))) =
    [EvHttp (create_request local_api sample_id);
     EvHttp (release_request local_api (Some sample_id));
     EvHttp (release_request local_api (Some sample_id))].
Proof.
  assert (H1 : session_id (obj (snd (create_session happy (initial local_api)))) =
               Some sample_id) by reflexivity.
  assert (H2 : sample_id <> "") by discriminate.
  split; [exact H1|]. split; [exact H2|].
  exact (proj2 (release_session_repeats unavailable sample_id 2
                  (snd (create_session happy (initial local_api))) H1 H2)).
Defined.

(** X7: the guard of [release_session] tests the truth value of the id,
    so an empty string counts as no id.  The call sends nothing exactly
    when the id is None or the empty string, and it is then a no-op. *)
Theorem release_session_silent_iff E st :
  trace (snd (release_session E st)) = trace st <->
  session_id (obj st) = None \/ session_id (obj st) = Some "".
Proof.
  split.
  - destruct (session_id (obj st)) as [s|] eqn:Hid; [|left; reflexivity].
    destruct (String.eqb_spec s "") as [->|Hs]; [right; reflexivity|].
    destruct (release_session_frame E st s Hid Hs) as (_ & _ & Ht).
    rewrite Ht. intros H. apply (f_equal (@List.length event)) in H.
    rewrite length_app in H. cbn in H. lia.
  - rewrite release_session_eq. intros [H|H]; rewrite H; reflexivity.
Qed.

(** X8: [release_session] raises only what [except Exception] does not
    catch: it raises [e] exactly when the object has a non-empty id, the
    release request fails with [e], and [e] is no [Exception] (a
    cancellation or a keyboard interrupt). *)
Theorem release_session_raises_iff E st e :
  fst (release_session E st) = Raise e <->
  not_id (session_id (obj st)) = false /\
  net E (trace st) (release_request (api_url (obj st)) (session_id (obj st))) = NetRaises e /\
  is_Exception e = false.
Proof.
  rewrite release_session_eq. destruct (not_id _).
  - split; [discriminate | intros (H & _); discriminate].
  - cbn zeta. destruct (net E _ _) as [s b|e0].
    + split; [discriminate | intros (_ & H & _); discriminate].
    + destruct (is_Exception e0) eqn:He.
      * split; [discriminate|]. intros (_ & [= ->] & H). congruence.
      * split; [intros [= <-]; repeat split; exact He|].
        intros (_ & [= ->] & _). reflexivity.
Qed.

(** ** run_ai_agent_task *)

Lemma try_except_quiet {A : Type} (body : M A) (a : A) st :
  quiet (fst (try_except body (fun _ => mret a) st)).
Proof.
  unfold try_except. destruct (body st) as [[x|e] st']; [exact I|].
  destruct (is_Exception e) eqn:He; [exact I | exact He].
Qed.

Lemma release_session_quiet E st : quiet (fst (release_session E st)).
Proof.
  rewrite release_session_eq. destruct (not_id _); [exact I|]. cbn zeta.
  destruct (net E _ _) as [s b|e]; [exact I|].
  destruct (is_Exception e) eqn:He; [exact I | exact He].
Qed.

Lemma cleanup_quiet E st : quiet (fst (cleanup E st)).
Proof.
  unfold cleanup. rewrite bind_run.
  pose proof (try_except_quiet
                (b ← get_browser;
                 match b with
                 | Some _ => call E BrowserClose
                 | None => raise UnboundLocalError
                 end) tt st) as H.
  fold (close_browser E) in H.
  destruct (close_browser E st) as [[[]|e] st']; [apply release_session_quiet | exact H].
Qed.

(** The guarded block of [run_ai_agent_task], entered in any state. *)
Lemma guarded_task_quiet E st :
  quiet (fst (try_finally (try_except (agent_phase E) (fun _ => mret tt)) (cleanup E) st)).
Proof.
  unfold try_finally.
  pose proof (try_except_quiet (agent_phase E) tt st) as Hb.
  destruct (try_except (agent_phase E) (fun _ => mret tt) st) as [r st'].
  pose proof (cleanup_quiet E st') as Hc.
  destruct (cleanup E st') as [[[]|e] st'']; [exact Hb | exact Hc].
Qed.

(** X9: [run_ai_agent_task] lets no [Exception] reach its caller:
    whatever the service and the collaborators do, it returns, or it
    raises something that is not an [Exception] (a cancellation or a
    keyboard interrupt). *)
Theorem run_ai_agent_task_quiet E api st :
  quiet (fst (run_ai_agent_task E api st)).
Proof.
  unfold run_ai_agent_task, new_session. rewrite !bind_run.
  unfold set_self, set_browser. cbn [obj local_browser trace].
  apply guarded_task_quiet.
Qed.

Lemma one_session_log api u tr0 st ev :
  follows_creation api u ev -> one_session api u tr0 st -> one_session api u tr0 (log ev st).
Proof.
  intros Hev (Ha & Hi & rest & Hr & Hf). repeat split; [exact Ha | exact Hi |].
  exists (rest ++ [ev])%list. split.
  - cbn. rewrite Hr, <- app_assoc. reflexivity.
  - apply Forall_app. split; [exact Hf | constructor; [exact Hev | constructor]].
Qed.

Lemma keeps_call_one_session E api u tr0 c : keeps (one_session api u tr0) (call E c).
Proof.
  intros st H. unfold call.
  destruct (ext E (trace st) c); cbn; apply one_session_log; [exact I | exact H | exact I | exact H].
Qed.

Lemma keeps_set_browser_one_session api u tr0 b :
  keeps (one_session api u tr0) (set_browser b).
Proof. intros st H. exact H. Qed.

Lemma run_call_one_session E api bits tr0 st c :
  one_session api (str_uuid bits) tr0 st -> one_session api (str_uuid bits) tr0 (run_call E st c).
Proof.
  intros (Ha & Hi & rest & Hr & Hf).
  destruct (run_call_state E st bits c Hi) as (Ho & _ & Ht).
  repeat split; [rewrite Ho; exact Ha | rewrite Ho; exact Hi |].
  exists (rest ++ [EvHttp (request_of api (str_uuid bits) c)])%list. split.
  - rewrite Ht, Hr, Ha, <- app_assoc. reflexivity.
  - apply Forall_app. split; [exact Hf|]. constructor; [|constructor].
    destruct c; [left | right]; reflexivity.
Qed.

Lemma keeps_details_one_session E api bits tr0 :
  keeps (one_session api (str_uuid bits) tr0) (get_session_details E).
Proof. intros st H. exact (run_call_one_session E api bits tr0 st Inspect H). Qed.

Lemma keeps_release_one_session E api bits tr0 :
  keeps (one_session api (str_uuid bits) tr0) (release_session E).
Proof. intros st H. exact (run_call_one_session E api bits tr0 st Release H). Qed.

#[export] Hint Resolve keeps_call_one_session keeps_set_browser_one_session
  keeps_details_one_session keeps_release_one_session : keeps.

(** As [keeps_tac], but a method with a lemma of its own is taken as a
    whole. *)
Ltac keeps_whole :=
  repeat first
    [ solve [eauto with keeps]
    | apply keeps_bind; [|intros ?]
    | apply keeps_try_except; [|intros ?]
    | match goal with |- keeps _ (if ?b then _ else _) => destruct b end
    | match goal with |- keeps _ (match ?b with Some _ => _ | None => _ end) => destruct b end ].

(** X10: a run of [run_ai_agent_task] deals with one session only.  Its
    first event is the creation request, for a fresh id at the given
    base URL; the creation is never repeated, and every request after
    it is the inspection or the release of that same id at that same
    base URL. *)
Theorem run_ai_agent_task_one_session E api st0 :
  let u := str_uuid (uuid4 E (trace st0)) in
  let st' := snd (run_ai_agent_task E api st0) in
  session_id (obj st') = Some u /\
  exists rest,
    trace st' = (trace st0 ++ EvHttp (create_request api u) :: rest)%list /\
    Forall (follows_creation api u) rest.
Proof.
  intros u st'. subst st'. rewrite run_ai_agent_task_state.
  set (st1 := {| obj := init api; local_browser := None; trace := trace st0 |}).
  enough (H : one_session api u (trace st0)
                (snd (cleanup E (snd (try_except (agent_phase E) (fun _ => mret tt) st1)))))
    by (destruct H as (_ & Hi & Hr); split; [exact Hi | exact Hr]).
  assert (Hc : keeps (one_session api u (trace st0)) (cleanup E)).
  { unfold cleanup, close_browser, u. keeps_whole. }
  apply Hc. apply try_except_state; [|intros e; apply keeps_ret].
  unfold agent_phase. apply bind_state.
  - destruct (create_session_state E st1) as (Hid & Hapi & _ & Htr).
    repeat split; [exact Hapi | exact Hid |].
    exists []. split; [exact Htr | constructor].
  - intros cdp. unfold u. keeps_whole.
Qed.

(** X11: when the creation request fails with an HTTP error status or
    an [Exception], [run_ai_agent_task] builds no browser and calls no
    collaborator, not even [browser.close()]: the run consists of the
    creation request and a release request for the id that was
    generated, the object keeps that id without any endpoint, and no
    [Exception] reaches the caller. *)
Theorem failed_creation_run E api st0 :
  let st1 := {| obj := init api; local_browser := None; trace := trace st0 |} in
  let u := str_uuid (uuid4 E (trace st0)) in
  let st' := snd (run_ai_agent_task E api st0) in
  creation_fails E st1 ->
  (forall e, creation E st1 = NetRaises e -> is_Exception e = true) ->
  quiet (fst (run_ai_agent_task E api st0)) /\
  trace st' =
    (trace st0 ++ [EvHttp (create_request api u); EvHttp (release_request api (Some u))])%list /\
  obj st' = {| api_url := api; session_id := Some u; cdp_url := VNone; session_data := VNone |}.
Proof.
  intros st1 u st' Hf He. subst st'.
  split; [|split; [exact (failed_creation_releases E api st0 Hf He)|]].
  - unfold run_ai_agent_task, new_session. rewrite !bind_run.
    unfold set_self, set_browser. cbn [obj local_browser trace].
    apply guarded_task_quiet.
  - rewrite run_ai_agent_task_state. fold st1.
    assert (Hb : obj (snd (try_except (agent_phase E) (fun _ => mret tt) st1)) =
                 {| api_url := api; session_id := Some u;
                    cdp_url := VNone; session_data := VNone |} /\
                 local_browser (snd (try_except (agent_phase E) (fun _ => mret tt) st1)) = None).
    { unfold try_except, agent_phase. rewrite bind_run, create_session_eq. cbn zeta.
      unfold creation_fails in Hf. destruct (creation E st1) as [s b|e].
      - rewrite (error_status_true s Hf). split; reflexivity.
      - rewrite (He e eq_refl). split; reflexivity. }
    destruct Hb as (Ho & Hl).
    set (st2 := snd (try_except (agent_phase E) (fun _ => mret tt) st1)) in *.
    unfold cleanup. rewrite bind_run, close_browser_eq, Hl.
    assert (Hid : session_id (obj st2) = Some (str_uuid (uuid4 E (trace st0))))
      by (rewrite Ho; reflexivity).
    destruct (run_call_state E st2 (uuid4 E (trace st0)) Release Hid) as (Ho' & _ & _).
    cbn [run_call] in Ho'. rewrite Ho'. exact Ho.
Qed.

Lemma failed_creation_run_witness :
  creation_fails unavailable {| obj := init local_api; local_browser := None; trace := [] |} /\
  trace (snd (run_ai_agent_task unavailable local_api (initial local_api))) =
    [EvHttp (create_request local_api sample_id);
     EvHttp (release_request local_api (Some sample_id))] /\
  obj (snd (run_ai_agent_task unavailable local_api (initial local_api))) =
    {| api_url := local_api; session_id := Some sample_id;
       cdp_url := VNone; session_data := VNone |}.
Proof.
  assert (H1 : creation_fails unavailable
                 {| obj := init local_api; local_browser := None; trace := [] |})
    by (cbn; lia).
  split; [exact H1|].
  refine (proj2 (failed_creation_run unavailable local_api (initial local_api) H1 _)).
  intros e H. discriminate H.
Defined.

(** ** test_basic_connection *)

Lemma create_session_returned E st c :
  fst (create_session E st) = Ret c -> cdp_url (obj (snd (create_session E st))) = c.
Proof.
  rewrite create_session_eq. cbn zeta.
  destruct (creation E st) as [s b|e]; [|discriminate].
  destruct ((400 <=? s) && (s <? 600)); [discriminate|].
  destruct b as [d|]; [|discriminate].
  destruct d; try discriminate. cbn. intros [= <-]. reflexivity.
Qed.

(** The connection-only path up to the end of its wait. *)
Lemma test_basic_connection_run E api st0 :
  let st1 := {| obj := init api; local_browser := None; trace := trace st0 |} in
  test_basic_connection E api st0 =
  match create_session E st1 with
  | (Ret _, st2) =>
      match ext E (trace st2) (Sleep 30) with
      | Returns => release_session E (log (EvExt (Sleep 30)) st2)
      | ExtRaises e => (Raise e, log (EvExt (Sleep 30)) st2)
      end
  | (Raise e, st2) => (Raise e, st2)
  end.
Proof.
  intros st1. unfold test_basic_connection, new_session. rewrite !bind_run.
  unfold set_self, set_browser. cbn [obj local_browser trace]. fold st1.
  rewrite bind_run. destruct (create_session E st1) as [[c|e] st2]; [|reflexivity].
  rewrite bind_run. unfold call. destruct (ext E (trace st2) (Sleep 30)); reflexivity.
Qed.

(** X12: [test_basic_connection] handles nothing: whatever
    [create_session] raises leaves the function unchanged, right after
    the creation request, with neither the wait nor a release. *)
Theorem test_basic_connection_propagates E api st0 e :
  let st1 := {| obj := init api; local_browser := None; trace := trace st0 |} in
  fst (create_session E st1) = Raise e ->
  fst (test_basic_connection E api st0) = Raise e /\
  trace (snd (test_basic_connection E api st0)) =
    (trace st0 ++ [EvHttp (create_request api (str_uuid (uuid4 E (trace st0))))])%list.
Proof.
  intros st1 He. rewrite test_basic_connection_run. fold st1.
  destruct (create_session_state E st1) as (_ & _ & _ & Htr).
  destruct (create_session E st1) as [[c|e'] st2]; [discriminate He|].
  cbn [fst snd] in *. injection He as ->. split; [reflexivity | exact Htr].
Qed.

Lemma test_basic_connection_propagates_witness :
  fst (create_session list_body
         {| obj := init local_api; local_browser := None; trace := [] |}) =
    Raise AttributeError /\
  fst (test_basic_connection list_body local_api (initial local_api)) = Raise AttributeError /\
  trace (snd (test_basic_connection list_body local_api (initial local_api))) =
    [EvHttp (create_request local_api sample_id)].
Proof.
  assert (H1 : fst (create_session list_body
                      {| obj := init local_api; local_browser := None; trace := [] |}) =
               Raise AttributeError) by reflexivity.
  split; [exact H1|].
  exact (test_basic_connection_propagates list_body local_api (initial local_api) _ H1).
Defined.

(** X13: [test_basic_connection] has no cleanup block.  When the session
    was created and the 30 second wait is then interrupted, the
    exception leaves the function and no release request is sent: the
    session stays allocated. *)
Theorem test_basic_connection_interrupted E api st0 c e :
  let st1 := {| obj := init api; local_browser := None; trace := trace st0 |} in
  let u := str_uuid (uuid4 E (trace st0)) in
  fst (create_session E st1) = Ret c ->
  ext E (trace st0 ++ [EvHttp (create_request api u)])%list (Sleep 30) = ExtRaises e ->
  fst (test_basic_connection E api st0) = Raise e /\
  trace (snd (test_basic_connection E api st0)) =
    (trace st0 ++ [EvHttp (create_request api u); EvExt (Sleep 30)])%list /\
  cdp_url (obj (snd (test_basic_connection E api st0))) = c.
Proof.
  intros st1 u Hc He. rewrite test_basic_connection_run. fold st1.
  destruct (create_session_state E st1) as (_ & _ & _ & Htr).
  pose proof (create_session_returned E st1 c Hc) as Hcdp.
  destruct (create_session E st1) as [[c'|e'] st2]; [|discriminate Hc].
  cbn [fst snd] in *. cbn [st1 obj trace init api_url] in Htr. fold u in Htr.
  rewrite Htr, He. cbn. split; [reflexivity|]. split; [|exact Hcdp].
  rewrite Htr, <- app_assoc. reflexivity.
Qed.

Lemma test_basic_connection_interrupted_witness :
  fst (create_session interrupted
         {| obj := init local_api; local_browser := None; trace := [] |}) =
    Ret (VStr "ws://svc/cdp/S1") /\
  ext interrupted ([] ++ [EvHttp (create_request local_api sample_id)])%list (Sleep 30) =
    ExtRaises KeyboardInterrupt /\
  fst (test_basic_connection interrupted local_api (initial local_api)) =
    Raise KeyboardInterrupt /\
  trace (snd (test_basic_connection interrupted local_api (initial local_api))) =
    [EvHttp (create_request local_api sample_id); EvExt (Sleep 30)].
Proof.
  assert (H1 : fst (create_session interrupted
                      {| obj := init local_api; local_browser := None; trace := [] |}) =
               Ret (VStr "ws://svc/cdp/S1")) by reflexivity.
  assert (H2 : ext interrupted ([] ++ [EvHttp (create_request local_api sample_id)])%list
                 (Sleep 30) = ExtRaises KeyboardInterrupt) by reflexivity.
  split; [exact H1|]. split; [exact H2|].
  destruct (test_basic_connection_interrupted interrupted local_api (initial local_api)
              _ _ H1 H2) as (R1 & R2 & _).
  split; [exact R1 | exact R2].
Defined.

(** X14: when the session was created and the wait returns,
    [test_basic_connection] ends by releasing that session: its run is
    the creation request, the wait and the release request for the same
    id, and the outcome of the release cannot make it raise an
    [Exception]. *)
Theorem test_basic_connection_completes E api st0 c :
  let st1 := {| obj := init api; local_browser := None; trace := trace st0 |} in
  let u := str_uuid (uuid4 E (trace st0)) in
  fst (create_session E st1) = Ret c ->
  ext E (trace st0 ++ [EvHttp (create_request api u)])%list (Sleep 30) = Returns ->
  quiet (fst (test_basic_connection E api st0)) /\
  trace (snd (test_basic_connection E api st0)) =
    (trace st0 ++ [EvHttp (create_request api u); EvExt (Sleep 30);
                   EvHttp (release_request api (Some u))])%list /\
  cdp_url (obj (snd (test_basic_connection E api st0))) = c.
Proof.
  intros st1 u Hc He. rewrite test_basic_connection_run. fold st1.
  destruct (create_session_state E st1) as (Hid & Hapi & _ & Htr).
  pose proof (create_session_returned E st1 c Hc) as Hcdp.
  destruct (create_session E st1) as [[c'|e'] st2]; [|discriminate Hc].
  cbn [fst snd] in *. cbn [st1 obj trace init api_url] in Htr, Hapi. fold u in Htr, Hid.
  rewrite Htr, He.
  destruct (run_call_state E (log (EvExt (Sleep 30)) st2) (uuid4 E (trace st0)) Release Hid)
    as (Ho & _ & Ht).
  cbn [run_call] in Ho, Ht. fold u in Ht.
  split; [apply release_session_quiet|]. split; [|rewrite Ho; exact Hcdp].
  rewrite Ht. cbn [log trace obj request_of]. rewrite Htr, Hapi, <- !app_assoc. reflexivity.
Qed.

Lemma test_basic_connection_completes_witness :
  fst (create_session happy
         {| obj := init local_api; local_browser := None; trace := [] |}) =
    Ret (VStr "ws://svc/cdp/S1") /\
  ext happy ([] ++ [EvHttp (create_request local_api sample_id)])%list (Sleep 30) = Returns /\
  trace (snd (test_basic_connection happy local_api (initial local_api))) =
    [EvHttp (create_request local_api sample_id); EvExt (Sleep 30);
     EvHttp (release_request local_api (Some sample_id))].
Proof.
  assert (H1 : fst (create_session happy
                      {| obj := init local_api; local_browser := None; trace := [] |}) =
               Ret (VStr "ws://svc/cdp/S1")) by reflexivity.
  assert (H2 : ext happy ([] ++ [EvHttp (create_request local_api sample_id)])%list
                 (Sleep 30) = Returns) by reflexivity.
  split; [exact H1|]. split; [exact H2|].
  destruct (test_basic_connection_completes happy local_api (initial local_api) _ H1 H2)
    as (_ & R2 & _).
  exact R2.
Defined.

(** ** test_steel_cdp *)

Lemma test_steel_cdp_eq E st :
  test_steel_cdp E st =
  let u := str_uuid (uuid4 E (trace st)) in
  let st1 := log (EvHttp (cdp_create_request u)) st in
  match net E (trace st) (cdp_create_request u) with
  | NetRaises e => (Raise e, st1)
  | Response s b =>
      if (400 <=? s) && (s <? 600) then (Raise (HTTPError s), st1)
      else
        match b with
        | None => (Raise JSONDecodeError, st1)
        | Some (VDict m) =>
            match m !! "websocketUrl" with
            | None => (Raise (KeyError "websocketUrl"), st1)
            | Some ws =>
                match m !! "sessionViewerUrl" with
                | None => (Raise (KeyError "sessionViewerUrl"), st1)
                | Some _ =>
                    let st2 := log (EvExt (Playwright ws)) st1 in
                    match ext E (trace st1) (Playwright ws) with
                    | ExtRaises e => (Raise e, st2)
                    | Returns =>
                        match net E (trace st2) (cdp_release_request u) with
                        | Response _ _ => (Ret tt, log (EvHttp (cdp_release_request u)) st2)
                        | NetRaises e => (Raise e, log (EvHttp (cdp_release_request u)) st2)
                        end
                    end
                end
            end
        | Some _ => (Raise TypeError, st1)
        end
  end.
Proof.
  unfold test_steel_cdp. rewrite bind_run. unfold new_uuid. cbn zeta.
  rewrite bind_run. unfold requests_post at 1, send at 1.
  change {| meth := POST; url := "http://localhost:3000" +:+ "/v1/sessions";
            json_body := Some (VDict {[ "sessionId" := VStr (str_uuid (uuid4 E (trace st))) ]});
            timeout := None |}
    with (cdp_create_request (str_uuid (uuid4 E (trace st)))).
  destruct (net E (trace st) _) as [s b|e]; [|reflexivity].
  rewrite bind_run. unfold raise_for_status. cbn [fst].
  destruct ((400 <=? s) && (s <? 600)); [reflexivity|].
  unfold mret at 1, M_ret at 1. rewrite bind_run. unfold response_json. cbn [snd].
  destruct b as [d|]; [|reflexivity].
  unfold mret at 1, M_ret at 1. rewrite bind_run.
  destruct d; try reflexivity.
  unfold subscript at 1. destruct (m !! "websocketUrl") as [ws|] eqn:Hws; [|reflexivity].
  unfold mret at 1, M_ret at 1. rewrite bind_run.
  unfold subscript at 1. destruct (m !! "sessionViewerUrl") as [v|]; [|reflexivity].
  unfold mret at 1, M_ret at 1. rewrite bind_run.
  unfold subscript at 1. rewrite Hws.
  unfold mret at 1, M_ret at 1. rewrite bind_run. unfold call.
  destruct (ext E _ _) as [|e]; [|reflexivity].
  rewrite bind_run. unfold requests_post, send.
  change {| meth := POST;
            url := "http://localhost:3000" +:+ "/v1/sessions/" +:+
                   str_uuid (uuid4 E (trace st)) +:+ "/release";
            json_body := None; timeout := None |}
    with (cdp_release_request (str_uuid (uuid4 E (trace st)))).
  destruct (net E _ _) as [s' b'|e]; reflexivity.
Qed.

(** X15: simple-test.py reads [websocketUrl] and [sessionViewerUrl] by
    subscript.  When the answer to the creation is a JSON object without
    one of them, [test_steel_cdp] raises [KeyError] for the first one
    missing, before Playwright is started; the creation request is the
    only event of the run, so the session just created is not released. *)
Theorem test_steel_cdp_missing_key E st s m :
  let u := str_uuid (uuid4 E (trace st)) in
  net E (trace st) (cdp_create_request u) = Response s (Some (VDict m)) ->
  ~ 400 <= s < 600 ->
  m !! "websocketUrl" = None \/ m !! "sessionViewerUrl" = None ->
  fst (test_steel_cdp E st) =
    Raise (KeyError (match m !! "websocketUrl" with
                     | None => "websocketUrl"
                     | Some _ => "sessionViewerUrl"
                     end)) /\
  trace (snd (test_steel_cdp E st)) = (trace st ++ [EvHttp (cdp_create_request u)])%list.
Proof.
  intros u Hnet Hs Hm. rewrite test_steel_cdp_eq. cbn zeta. fold u. rewrite Hnet.
  rewrite (error_status_false s Hs).
  destruct (m !! "websocketUrl") as [ws|]; [|split; reflexivity].
  destruct Hm as [Hm|Hm]; [discriminate Hm|]. rewrite Hm. split; reflexivity.
Qed.

Lemma test_steel_cdp_missing_key_witness :
  net no_endpoint (trace (initial local_api)) (cdp_create_request sample_id) =
    Response 200 (Some (VDict ∅)) /\
  ~ 400 <= 200 < 600 /\
  ((∅ : gmap string value) !! "websocketUrl" = None \/
   (∅ : gmap string value) !! "sessionViewerUrl" = None) /\
  fst (test_steel_cdp no_endpoint (initial local_api)) = Raise (KeyError "websocketUrl") /\
  trace (snd (test_steel_cdp no_endpoint (initial local_api))) =
    [EvHttp (cdp_create_request sample_id)].
Proof.
  assert (H1 : net no_endpoint (trace (initial local_api)) (cdp_create_request sample_id) =
               Response 200 (Some (VDict ∅))) by reflexivity.
  assert (H2 : ~ 400 <= 200 < 600) by lia.
  assert (H3 : (∅ : gmap string value) !! "websocketUrl" = None \/
               (∅ : gmap string value) !! "sessionViewerUrl" = None) by (left; reflexivity).
  split; [exact H1|]. split; [exact H2|]. split; [exact H3|].
  exact (test_steel_cdp_missing_key no_endpoint (initial local_api) 200 ∅ H1 H2 H3).
Defined.

(** X16: [test_steel_cdp] has no cleanup block either.  When the
    Playwright block fails, the exception leaves the function and the
    release request is never sent. *)
Theorem test_steel_cdp_playwright_fails E st s m ws v e :
  let u := str_uuid (uuid4 E (trace st)) in
  net E (trace st) (cdp_create_request u) = Response s (Some (VDict m)) ->
  ~ 400 <= s < 600 ->
  m !! "websocketUrl" = Some ws ->
  m !! "sessionViewerUrl" = Some v ->
  ext E (trace st ++ [EvHttp (cdp_create_request u)])%list (Playwright ws) = ExtRaises e ->
  fst (test_steel_cdp E st) = Raise e /\
  trace (snd (test_steel_cdp E st)) =
    (trace st ++ [EvHttp (cdp_create_request u); EvExt (Playwright ws)])%list.
Proof.
  intros u Hnet Hs Hws Hv He. rewrite test_steel_cdp_eq. cbn zeta. fold u.
  rewrite Hnet, (error_status_false s Hs), Hws, Hv.
  cbn [log trace]. rewrite He. split; [reflexivity|].
  cbn. rewrite <- app_assoc. reflexivity.
Qed.

Lemma test_steel_cdp_playwright_fails_witness :
  net playwright_fails (trace (initial local_api)) (cdp_create_request sample_id) =
    Response 201 (Some (VDict full_body)) /\
  ~ 400 <= 201 < 600 /\
  full_body !! "websocketUrl" = Some (VStr "ws://svc/cdp/S1") /\
  full_body !! "sessionViewerUrl" = Some (VStr "http://svc/view/S1") /\
  ext playwright_fails
    (trace (initial local_api) ++ [EvHttp (cdp_create_request sample_id)])%list
    (Playwright (VStr "ws://svc/cdp/S1")) = ExtRaises (CollaboratorError "playwright") /\
  fst (test_steel_cdp playwright_fails (initial local_api)) =
    Raise (CollaboratorError "playwright") /\
  trace (snd (test_steel_cdp playwright_fails (initial local_api))) =
    [EvHttp (cdp_create_request sample_id); EvExt (Playwright (VStr "ws://svc/cdp/S1"))].
Proof.
  assert (H1 : net playwright_fails (trace (initial local_api)) (cdp_create_request sample_id) =
               Response 201 (Some (VDict full_body))) by reflexivity.
  assert (H2 : ~ 400 <= 201 < 600) by lia.
  assert (H3 : full_body !! "websocketUrl" = Some (VStr "ws://svc/cdp/S1")) by reflexivity.
  assert (H4 : full_body !! "sessionViewerUrl" = Some (VStr "http://svc/view/S1"))
    by reflexivity.
  assert (H5 : ext playwright_fails
                 (trace (initial local_api) ++ [EvHttp (cdp_create_request sample_id)])%list
                 (Playwright (VStr "ws://svc/cdp/S1")) =
               ExtRaises (CollaboratorError "playwright")) by reflexivity.
  do 5 (split; [assumption|]).
  exact (test_steel_cdp_playwright_fails playwright_fails (initial local_api) 201 full_body
           _ _ _ H1 H2 H3 H4 H5).
Defined.

(** X17: when the session is created, both fields are present and the
    Playwright block returns, [test_steel_cdp] sends the release request
    for the id it sent in the creation request, and it never looks at
    the answer: any response, whatever its status, ends the run
    normally. *)
Theorem test_steel_cdp_completes E st s m ws v s' b' :
  let u := str_uuid (uuid4 E (trace st)) in
  let tr := (trace st ++ [EvHttp (cdp_create_request u); EvExt (Playwright ws)])%list in
  net E (trace st) (cdp_create_request u) = Response s (Some (VDict m)) ->
  ~ 400 <= s < 600 ->
  m !! "websocketUrl" = Some ws ->
  m !! "sessionViewerUrl" = Some v ->
  ext E (trace st ++ [EvHttp (cdp_create_request u)])%list (Playwright ws) = Returns ->
  net E tr (cdp_release_request u) = Response s' b' ->
  fst (test_steel_cdp E st) = Ret tt /\
  trace (snd (test_steel_cdp E st)) = (tr ++ [EvHttp (cdp_release_request u)])%list /\
  json_body (cdp_create_request u) = Some (VDict {[ "sessionId" := VStr u ]}) /\
  url (cdp_release_request u) = "http://localhost:3000/v1/sessions/" +:+ u +:+ "/release".
Proof.
  intros u tr Hnet Hs Hws Hv He Hrel. rewrite test_steel_cdp_eq. cbn zeta. fold u.
  rewrite Hnet, (error_status_false s Hs), Hws, Hv.
  cbn [log trace]. rewrite He.
  assert (Htr : ((trace st ++ [EvHttp (cdp_create_request u)]) ++ [EvExt (Playwright ws)])%list
                = tr) by (unfold tr; rewrite <- app_assoc; reflexivity).
  rewrite Htr, Hrel. cbn [fst snd log trace]. rewrite Htr.
  split; [reflexivity|]. split; [reflexivity|]. split; reflexivity.
Qed.

Lemma test_steel_cdp_completes_witness :
  fst (test_steel_cdp release_refused (initial local_api)) = Ret tt /\
  trace (snd (test_steel_cdp release_refused (initial local_api))) =
    [EvHttp (cdp_create_request sample_id); EvExt (Playwright (VStr "ws://svc/cdp/S1"));
     EvHttp (cdp_release_request sample_id)] /\
  net release_refused
    [EvHttp (cdp_create_request sample_id); EvExt (Playwright (VStr "ws://svc/cdp/S1"))]
    (cdp_release_request sample_id) = Response 500 None.
Proof.
  assert (H6 : net release_refused
                 [EvHttp (cdp_create_request sample_id);
                  EvExt (Playwright (VStr "ws://svc/cdp/S1"))]
                 (cdp_release_request sample_id) = Response 500 None) by reflexivity.
  destruct (test_steel_cdp_completes release_refused (initial local_api) 201 full_body
              (VStr "ws://svc/cdp/S1") (VStr "http://svc/view/S1") 500 None
              eq_refl ltac:(lia) eq_refl eq_refl eq_refl H6) as (R1 & R2 & _).
  split; [exact R1|]. split; [exact R2 | exact H6].
Defined.

(** ** main *)

Lemma lower_ascii_y (a : ascii) :
  lower_ascii a = "y"%char <-> a = "y"%char \/ a = "Y"%char.
Proof.
  destruct a as [[] [] [] [] [] [] [] []]; vm_compute;
    (split; [intros H; first [discriminate H | left; reflexivity | right; reflexivity]
            | intros [H|H]; first [discriminate H | reflexivity]]).
Qed.

Lemma lower_y (c : string) : lower c = "y" <-> c = "y" \/ c = "Y".
Proof.
  destruct c as [|a [|b c]].
  - split; [discriminate | intros [H|H]; discriminate H].
  - cbn [lower]. split.
    + intros [= H]. apply lower_ascii_y in H as [->| ->]; [left | right]; reflexivity.
    + intros [[= ->]|[= ->]]; reflexivity.
  - cbn [lower]. split; [discriminate | intros [H|H]; discriminate H].
Qed.

(** X18: without an API key (the variable unset or empty) [main] asks
    at the prompt and runs the connection-only path exactly when the
    answer is [y] or [Y]; after any other answer it returns at once,
    with no request sent and no collaborator called; if the prompt
    itself fails, that exception ends [main]. *)
Theorem main_without_key E P st :
  environ P !! "ANTHROPIC_API_KEY" = None \/ environ P !! "ANTHROPIC_API_KEY" = Some "" ->
  (forall c, answer P = Ret c -> c = "y" \/ c = "Y" ->
     main E P st = test_basic_connection E (configured_url P) st) /\
  (forall c, answer P = Ret c -> c <> "y" -> c <> "Y" -> main E P st = (Ret tt, st)) /\
  (forall e, answer P = Raise e -> main E P st = (Raise e, st)).
Proof.
  intros Hk.
  assert (Hn : no_value (environ P !! "ANTHROPIC_API_KEY") = true)
    by (destruct Hk as [-> | ->]; reflexivity).
  unfold main. cbn zeta. rewrite Hn, bind_run. unfold input.
  split; [|split].
  - intros c -> Hc. apply lower_y in Hc. rewrite Hc. reflexivity.
  - intros c -> H1 H2.
    destruct (String.eqb_spec (lower c) "y") as [Hl|Hl]; [|reflexivity].
    apply lower_y in Hl as [Hl|Hl]; contradiction.
  - intros e ->. reflexivity.
Qed.

Lemma main_without_key_witness :
  (environ declines !! "ANTHROPIC_API_KEY" = None \/
   environ declines !! "ANTHROPIC_API_KEY" = Some "") /\
  main unreachable declines (initial local_api) = (Ret tt, initial local_api) /\
  (environ accepts !! "ANTHROPIC_API_KEY" = None \/
   environ accepts !! "ANTHROPIC_API_KEY" = Some "") /\
  main unreachable accepts (initial local_api) =
    test_basic_connection unreachable (configured_url accepts) (initial local_api).
Proof.
  assert (H1 : environ declines !! "ANTHROPIC_API_KEY" = None \/
               environ declines !! "ANTHROPIC_API_KEY" = Some "") by (left; reflexivity).
  assert (H2 : environ accepts !! "ANTHROPIC_API_KEY" = None \/
               environ accepts !! "ANTHROPIC_API_KEY" = Some "") by (right; reflexivity).
  split; [exact H1|]. split.
  - refine (proj1 (proj2 (main_without_key unreachable declines (initial local_api) H1))
              "n" eq_refl _ _); discriminate.
  - split; [exact H2|].
    refine (proj1 (main_without_key unreachable accepts (initial local_api) H2)
              "Y" eq_refl _).
    right; reflexivity.
Defined.

(** X19: with a non-empty API key [main] does not prompt: it is the
    agent task at the configured base URL, which is the value of
    [STEEL_API_URL] whenever the variable is set (an empty value
    included) and [http://localhost:3000] only when it is unset; and no
    [Exception] leaves [main]. *)
Theorem main_with_key E P st k :
  environ P !! "ANTHROPIC_API_KEY" = Some k ->
  k <> "" ->
  main E P st = run_ai_agent_task E (configured_url P) st /\
  quiet (fst (main E P st)) /\
  (forall v, environ P !! "STEEL_API_URL" = Some v -> configured_url P = v) /\
  (environ P !! "STEEL_API_URL" = None -> configured_url P = "http://localhost:3000").
Proof.
  intros Hk Hne.
  assert (Hmain : main E P st = run_ai_agent_task E (configured_url P) st).
  { unfold main. cbn zeta. rewrite Hk. cbn [no_value].
    replace (String.eqb k "") with false by (symmetry; apply String.eqb_neq; exact Hne).
    reflexivity. }
  split; [exact Hmain|]. split.
  - rewrite Hmain. unfold run_ai_agent_task, new_session. rewrite !bind_run.
    unfold set_self, set_browser. cbn [obj local_browser trace].
    apply guarded_task_quiet.
  - unfold configured_url. split; [intros v -> | intros ->]; reflexivity.
Qed.

Lemma main_with_key_witness :
  environ configured !! "ANTHROPIC_API_KEY" = Some "sk-test" /\
  "sk-test" <> "" /\
  main happy configured (initial local_api) =
    run_ai_agent_task happy "http://steel:3000" (initial local_api).
Proof.
  assert (H1 : environ configured !! "ANTHROPIC_API_KEY" = Some "sk-test") by reflexivity.
  assert (H2 : "sk-test" <> "") by discriminate.
  split; [exact H1|]. split; [exact H2|].
  exact (proj1 (main_with_key happy configured (initial local_api) "sk-test" H1 H2)).
Defined.

(** ** The endpoint handed to the browser *)

Section BrowserEndpoint.

Variable E : env.
Variable Q : value -> Prop.
Variable tr0 : list event.

Lemma browser_on_endpoint_log st ev :
  (forall c, ev <> EvExt (BrowserCtor c)) ->
  browser_on_endpoint Q tr0 st -> browser_on_endpoint Q tr0 (log ev st).
Proof.
  intros Hev (l & Hl & Hin). exists (l ++ [ev])%list. split.
  - cbn. rewrite Hl, <- app_assoc. reflexivity.
  - intros c Hc. apply in_app_or in Hc as [Hc|[Hc|[]]]; [exact (Hin c Hc)|].
    exfalso. exact (Hev c Hc).
Qed.

Lemma keeps_call_endpoint c0 :
  (forall c, c0 <> BrowserCtor c) -> keeps (browser_on_endpoint Q tr0) (call E c0).
Proof.
  intros Hc st H. unfold call.
  destruct (ext E (trace st) c0); cbn; apply browser_on_endpoint_log;
    try exact H; intros c [= Heq]; exact (Hc c Heq).
Qed.

Lemma keeps_set_browser_endpoint b : keeps (browser_on_endpoint Q tr0) (set_browser b).
Proof. intros st H. exact H. Qed.

Lemma keeps_details_endpoint : keeps (browser_on_endpoint Q tr0) (get_session_details E).
Proof.
  intros st H. rewrite get_session_details_eq. cbn zeta.
  destruct (net E _ _) as [s b|e]; [|apply browser_on_endpoint_log; [discriminate | exact H]].
  destruct (s =? 200); [|apply browser_on_endpoint_log; [discriminate | exact H]].
  destruct b; apply browser_on_endpoint_log; try exact H; discriminate.
Qed.

Lemma keeps_release_endpoint : keeps (browser_on_endpoint Q tr0) (release_session E).
Proof.
  intros st H. rewrite release_session_eq. destruct (not_id _); [exact H|]. cbn zeta.
  destruct (net E _ _) as [s b|e]; [apply browser_on_endpoint_log; [discriminate | exact H]|].
  destruct (is_Exception e); apply browser_on_endpoint_log; try exact H; discriminate.
Qed.

End BrowserEndpoint.

#[export] Hint Resolve keeps_call_endpoint keeps_set_browser_endpoint
  keeps_details_endpoint keeps_release_endpoint : keeps.
#[export] Hint Extern 1 (_ <> _) => discriminate : keeps.

(** X20: in a run of [run_ai_agent_task] a browser is built only after
    [create_session] has returned, and only on the endpoint it returned,
    which is the one the object still holds when the run ends. *)
Theorem browser_gets_session_endpoint E api st0 l c :
  let st1 := {| obj := init api; local_browser := None; trace := trace st0 |} in
  let st' := snd (run_ai_agent_task E api st0) in
  trace st' = (trace st0 ++ l)%list ->
  In (EvExt (BrowserCtor c)) l ->
  fst (create_session E st1) = Ret c /\ cdp_url (obj st') = c.
Proof.
  intros st1 st' Hl Hin. subst st'.
  set (Q := fun c => fst (create_session E st1) = Ret c).
  enough (H : browser_on_endpoint Q (trace st0) (snd (run_ai_agent_task E api st0))).
  { destruct H as (l' & Hl' & H). rewrite Hl in Hl'. apply app_inv_head in Hl'. subst l'.
    destruct (H c Hin) as (H1 & H2). split; [exact H2 | exact H1]. }
  rewrite run_ai_agent_task_state. fold st1.
  assert (Hc : keeps (browser_on_endpoint Q (trace st0)) (cleanup E)).
  { unfold cleanup, close_browser. keeps_whole. }
  apply Hc. apply try_except_state; [|intros e; apply keeps_ret].
  unfold agent_phase. rewrite bind_run.
  destruct (create_session_state E st1) as (_ & _ & _ & Htr).
  pose proof (create_session_returned E st1) as Hret.
  destruct (create_session E st1) as [[c1|e1] st2] eqn:Hcs; cbn [fst snd] in *.
  - assert (H2 : browser_on_endpoint Q (trace st0) st2).
    { exists [EvHttp (create_request (api_url (obj st1)) (str_uuid (uuid4 E (trace st1))))].
      split; [exact Htr|]. intros c' [Hc'|[]]. discriminate Hc'. }
    apply bind_state.
    + unfold call.
      assert (H3 : browser_on_endpoint Q (trace st0) (log (EvExt (BrowserCtor c1)) st2)).
      { destruct H2 as (l2 & Hl2 & Hin2). exists (l2 ++ [EvExt (BrowserCtor c1)])%list. split.
        - cbn. rewrite Hl2, <- app_assoc. reflexivity.
        - intros c' Hc'. apply in_app_or in Hc' as [Hc'|[[= <-]|[]]].
          + destruct (Hin2 c' Hc') as (Ha & Hb). split; [exact Ha | exact Hb].
          + split; [exact (Hret c1 eq_refl) | reflexivity]. }
      destruct (ext E (trace st2) (BrowserCtor c1)); exact H3.
    + intros []. keeps_whole.
  - exists [EvHttp (create_request (api_url (obj st1)) (str_uuid (uuid4 E (trace st1))))].
    split; [exact Htr|]. intros c' [Hc'|[]]. discriminate Hc'.
Qed.

Lemma browser_gets_session_endpoint_witness :
  trace (snd (run_ai_agent_task cancelled local_api (initial local_api))) =
    ([] ++ [EvHttp (create_request local_api sample_id);
            EvExt (BrowserCtor (VStr "ws://svc/cdp/S1"));
            EvExt ChatAnthropicCtor; EvExt AgentCtor; EvExt AgentRun;
            EvExt BrowserClose;
            EvHttp (release_request local_api (Some sample_id))])%list /\
  cdp_url (obj (snd (run_ai_agent_task cancelled local_api (initial local_api)))) =
    VStr "ws://svc/cdp/S1".
Proof.
  assert (H1 : trace (snd (run_ai_agent_task cancelled local_api (initial local_api))) =
    ([] ++ [EvHttp (create_request local_api sample_id);
            EvExt (BrowserCtor (VStr "ws://svc/cdp/S1"));
            EvExt ChatAnthropicCtor; EvExt AgentCtor; EvExt AgentRun;
            EvExt BrowserClose;
            EvHttp (release_request local_api (Some sample_id))])%list)
    by (vm_compute; reflexivity).
  split; [exact H1|].
  refine (proj2 (browser_gets_session_endpoint cancelled local_api (initial local_api)
                   _ (VStr "ws://svc/cdp/S1") H1 _)).
  right; left; reflexivity.
Defined.
